(** * MediKeep backend: security and audit subsystem

    A shallow embedding of the request-security middleware, the settings
    object, the login route, the audit listing and the document routes of
    [backend/app], with the properties of the design document proved (or
    refuted) against them.

    Conventions of the embedding:
    - a SQLAlchemy table is the list of its rows, a [Query] is the list of
      rows selected so far, [.filter(c)] keeps the rows on which [c] is SQL
      true (a comparison with a NULL column is never true), [.first()] is
      the head of the selection;
    - nullable columns and [Optional] parameters are [option]s;
    - integers, identifiers and timestamps (seconds) are [Z];
    - a route returns [Ok v] or raises [HTTPException status detail]. *)

From Stdlib Require Import ZArith Lia Ascii.
From stdpp Require Import base decidable option list sorting strings gmap pretty.

Local Open Scope Z_scope.

(** ** Results of a route *)

Inductive result (A : Type) : Type :=
| Ok (a : A)
| HTTPException (status_code : Z) (detail : string).

Arguments Ok {A} a.
Arguments HTTPException {A} status_code detail.

(** ** models/ *)

Module UserRole.
Inductive t : Set := ADMIN | CLINIC_ADMIN | CLINIC_STAFF | PATIENT.
#[global] Instance UserRole_eq_dec : EqDecision t.
Proof. solve_decision. Defined.
End UserRole.

Module AuditAction.
Inductive t : Set :=
| CREATE | UPDATE | DELETE | VIEW | DOWNLOAD | LOGIN | LOGOUT
| UPLOAD | ASSIGN | PROCESS | EXPORT.
#[global] Instance AuditAction_eq_dec : EqDecision t.
Proof. solve_decision. Defined.
End AuditAction.

Module AuditEntityType.
Inductive t : Set := USER | PATIENT | DOCUMENT | CLINIC | EXTRACTION | SYSTEM.
#[global] Instance AuditEntityType_eq_dec : EqDecision t.
Proof. solve_decision. Defined.
End AuditEntityType.

Module DocumentType.
Inductive t : Set :=
| LAB_REPORT | PRESCRIPTION | MEDICAL_RECORD | IMAGING_REPORT
| DISCHARGE_SUMMARY | OTHER.
#[global] Instance DocumentType_eq_dec : EqDecision t.
Proof. solve_decision. Defined.
End DocumentType.

Module DocumentStatus.
Inductive t : Set := UPLOADED | PROCESSING | PROCESSED | FAILED.
#[global] Instance DocumentStatus_eq_dec : EqDecision t.
Proof. solve_decision. Defined.
End DocumentStatus.

(** [role] is a Python attribute: the routes compare it with the members
    of [UserRole] and keep an [else] branch for anything else, which is
    [None] here. *)
Module User.
Record t : Type := mk {
  id : Z;
  email : string;
  hashed_password : string;
  first_name : string;
  last_name : string;
  role : option UserRole.t;
  is_active : bool;
  is_verified : bool
}.
End User.

Module Clinic.
Record t : Type := mk {
  id : Z;
  name : string;
  license_number : string;
  admin_user_id : option Z;
  is_active : bool
}.
End Clinic.

Module Patient.
Record t : Type := mk {
  id : Z;
  user_id : option Z;
  clinic_id : option Z;
  patient_id : option string
}.
End Patient.

Module Document.
Record t : Type := mk {
  id : Z;
  patient_id : option Z;
  clinic_id : option Z;
  filename : string;
  original_filename : string;
  file_path : string;
  file_size : Z;
  mime_type : string;
  document_type : DocumentType.t;
  status : DocumentStatus.t;
  notes : option string
}.
End Document.

Module AuditLog.
Record t : Type := mk {
  id : Z;
  user_id : option Z;
  user_email : option string;
  user_role : option string;
  action : AuditAction.t;
  entity_type : AuditEntityType.t;
  entity_id : option string;
  entity_name : option string;
  clinic_id : option Z;
  patient_id : option Z;
  description : string;
  ip_address : option string;
  user_agent : option string;
  request_path : option string;
  success : bool;
  error_message : option string;
  created_at : Z
}.
End AuditLog.

(** The database session: one list of rows per table. *)
Record Session : Type := mkSession {
  users : list User.t;
  clinics : list Clinic.t;
  patients : list Patient.t;
  documents : list Document.t;
  audit_logs : list AuditLog.t
}.

(** ** Query helpers *)

(** [column == value] in a [.filter(...)]: true on the rows whose column
    holds exactly that value, never on a NULL. *)
Definition sql_eq {A : Type} (column : option A) (value : A) : Prop :=
  column = Some value.

#[global] Instance sql_eq_dec {A : Type} `{EqDecision A}
  (column : option A) (value : A) : Decision (sql_eq column value).
Proof. unfold sql_eq. apply _. Defined.

(** [if n:] on an [Optional[int]] parameter: [None] and [0] are falsy. *)
Definition truthy_int (n : option Z) : option Z :=
  match n with
  | Some v => if decide (v = 0) then None else Some v
  | None => None
  end.

(** [Clinic.admin_user_id == current_user.id], [.first()]. *)
Definition clinic_of_admin (db : Session) (current_user : User.t)
  : option Clinic.t :=
  head (filter (λ c, sql_eq (Clinic.admin_user_id c) (User.id current_user))
               (clinics db)).

(** [query.offset(offset).limit(per_page).all()] *)
Definition offset_limit {A : Type} (offset per_page : Z) (rows : list A)
  : list A :=
  take (Z.to_nat per_page) (drop (Z.to_nat offset) rows).

(** ** routers/audit.py *)

Module Audit.

Record AuditLogListResponse : Type := mkResponse {
  logs : list AuditLog.t;
  total : Z;
  page : Z;
  per_page : Z
}.

(** The query parameters of [GET /audit/logs]. *)
Record Params : Type := mkParams {
  p_page : Z;
  p_per_page : Z;
  p_action : option AuditAction.t;
  p_entity_type : option AuditEntityType.t;
  p_user_id : option Z;
  p_clinic_id : option Z;
  p_patient_id : option Z;
  p_date_from : option Z;
  p_date_to : option Z;
  p_success : option bool
}.

(** A request that names a page and a page size and no filter. *)
Definition no_filters (page per_page : Z) : Params :=
  mkParams page per_page None None None None None None None None.

(** [Query(1, ge=1)] and [Query(20, ge=1, le=100)]: the framework answers
    422 before the body runs when a bound is violated. *)
Definition valid_paging (page per_page : Z) : Prop :=
  1 ≤ page ∧ 1 ≤ per_page ∧ per_page ≤ 100.

#[global] Instance valid_paging_dec page per_page
  : Decision (valid_paging page per_page).
Proof. unfold valid_paging. apply _. Defined.

(** "Apply role-based filtering": the [if]/[elif] chain on
    [current_user.role]. *)
Definition role_filter (db : Session) (current_user : User.t)
  (query : list AuditLog.t) : result (list AuditLog.t) :=
  match User.role current_user with
  | Some UserRole.ADMIN => Ok query
  | Some UserRole.CLINIC_ADMIN | Some UserRole.CLINIC_STAFF =>
      match clinic_of_admin db current_user with
      | Some clinic =>
          Ok (filter (λ e, sql_eq (AuditLog.clinic_id e) (Clinic.id clinic))
                     query)
      | None =>
          Ok (filter (λ e, sql_eq (AuditLog.user_id e) (User.id current_user))
                     query)
      end
  | Some UserRole.PATIENT =>
      Ok (filter (λ e, sql_eq (AuditLog.user_id e) (User.id current_user)
                       ∧ AuditLog.entity_type e
                           ∈ [AuditEntityType.USER; AuditEntityType.DOCUMENT])
                 query)
  | None => HTTPException 403 "Access denied"
  end.

(** One [if param: query = query.filter(...)] step. *)
Definition filter_if {A : Type} (param : option A)
  (cond : A → AuditLog.t → bool) (query : list AuditLog.t)
  : list AuditLog.t :=
  match param with
  | Some v => filter (λ e, cond v e) query
  | None => query
  end.

(** "Apply filters": the eight optional filters, in source order. *)
Definition apply_filters (f : Params) (query : list AuditLog.t)
  : list AuditLog.t :=
  let query := filter_if (p_action f)
    (λ v e, bool_decide (AuditLog.action e = v)) query in
  let query := filter_if (p_entity_type f)
    (λ v e, bool_decide (AuditLog.entity_type e = v)) query in
  let query := filter_if (truthy_int (p_user_id f))
    (λ v e, bool_decide (sql_eq (AuditLog.user_id e) v)) query in
  let query := filter_if (truthy_int (p_clinic_id f))
    (λ v e, bool_decide (sql_eq (AuditLog.clinic_id e) v)) query in
  let query := filter_if (truthy_int (p_patient_id f))
    (λ v e, bool_decide (sql_eq (AuditLog.patient_id e) v)) query in
  let query := filter_if (p_date_from f)
    (λ v e, bool_decide (v ≤ AuditLog.created_at e)) query in
  let query := filter_if (p_date_to f)
    (λ v e, bool_decide (AuditLog.created_at e ≤ v)) query in
  let query := filter_if (p_success f)
    (λ v e, bool_decide (AuditLog.success e = v)) query in
  query.

(** [desc(AuditLog.created_at)].  The query orders by [created_at]
    alone: which of two entries of equal [created_at] comes first is up
    to the database, and [merge_sort] in [get_audit_logs] is one such
    order.  Which entries a listing selects, its total and the sortedness
    of a page do not depend on that choice; what is stated of the exact
    order of a page is stated for pairwise distinct timestamps. *)
Definition newest_first (a b : AuditLog.t) : Prop :=
  AuditLog.created_at b ≤ AuditLog.created_at a.

#[global] Instance newest_first_dec a b : Decision (newest_first a b).
Proof. unfold newest_first. apply _. Defined.

(** The query as it stands at [total = query.count()]. *)
Definition selected (db : Session) (current_user : User.t) (f : Params)
  : result (list AuditLog.t) :=
  match role_filter db current_user (audit_logs db) with
  | Ok query => Ok (apply_filters f query)
  | HTTPException s d => HTTPException s d
  end.

Definition get_audit_logs (db : Session) (current_user : User.t) (f : Params)
  : result AuditLogListResponse :=
  if decide (valid_paging (p_page f) (p_per_page f)) then
    match selected db current_user f with
    | Ok query =>
        let total := Z.of_nat (length query) in
        let offset := (p_page f - 1) * p_per_page f in
        let logs :=
          offset_limit offset (p_per_page f) (merge_sort newest_first query) in
        Ok (mkResponse logs total (p_page f) (p_per_page f))
    | HTTPException s d => HTTPException s d
    end
  else HTTPException 422 "Unprocessable Entity".

End Audit.

(** ** HTTP requests and responses (Starlette) *)

Definition lower_ascii (c : ascii) : ascii :=
  let n := nat_of_ascii c in
  if (65 <=? n)%nat && (n <=? 90)%nat then ascii_of_nat (n + 32) else c.

(** [str.lower()] *)
Fixpoint lower (s : string) : string :=
  match s with
  | EmptyString => EmptyString
  | String c s' => String (lower_ascii c) (lower s')
  end.

(** [s.startswith(prefix)] *)
Definition startswith (s prefix : string) : bool := String.prefix prefix s.

(** [if not s:] on a string: only the empty string is falsy. *)
Definition truthy_str (s : string) : bool :=
  match s with
  | EmptyString => false
  | String _ _ => true
  end.

Module Request.
(** [headers] is the raw header list of the ASGI scope, names in lower
    case, in the order received; [client] is the peer address. *)
Record t : Type := mk {
  method : string;
  path : string;
  headers : list (string * string);
  client : string
}.

(** [request.headers.get(key)]: the first header of that name, looked up
    case-insensitively; [None] when there is none. *)
Definition headers_get (key : string) (request : t) : option string :=
  snd <$> head (filter (λ kv, kv.1 = lower key) (headers request)).
End Request.

Module Response.
(** Response headers are kept by lower-cased name, as [MutableHeaders]
    stores them. *)
Record t : Type := mk {
  status_code : Z;
  headers : gmap string string;
  content : string
}.

(** [response.headers[key] = value] *)
Definition set_header (key value : string) (response : t) : t :=
  mk (status_code response) (<[lower key := value]> (headers response))
     (content response).

(** [response.headers.get(key)] *)
Definition header (key : string) (response : t) : option string :=
  headers response !! lower key.
End Response.

(** [JSONResponse(status_code=..., content={"detail": ...})] *)
Definition JSONResponse (status_code : Z) (detail : string) : Response.t :=
  Response.mk status_code {[ "content-type" := "application/json" ]} detail.

(** What [call_next] stands for: the rest of the application, which may
    change the state [W] it runs in (database, files) while it builds the
    response. *)
Definition Handler (W : Type) : Type := Request.t → W → Response.t * W.

(** ** utils/security.py: the rate limiter *)

Module RateLimiter.

Record RateBucket : Type := mkBucket {
  window_start : Z;
  count : Z
}.

#[global] Instance RateBucket_eq_dec : EqDecision RateBucket.
Proof. solve_decision. Defined.

(** The limiter is the table of its buckets, one per client key. *)
Abbreviation t := (gmap string RateBucket).

(** Modelled from the spec: [utils/security.py], which defines the
    [rate_limiter] object the middleware calls, is not in the source tree.
    §4.3: "if no bucket exists for client_key or the bucket's window has
    elapsed (now - window_start >= window_seconds), start a fresh bucket
    with count = 1 and admit.  Otherwise increment count; admit iff the new
    count is <= max_requests."  The clock reading [now] is an argument. *)
Definition is_allowed (now : Z) (client_key : string)
  (max_requests window_seconds : Z) (buckets : t) : bool * t :=
  match buckets !! client_key with
  | Some bucket =>
      if decide (window_seconds ≤ now - window_start bucket) then
        (true, <[client_key := mkBucket now 1]> buckets)
      else
        let count := count bucket + 1 in
        (bool_decide (count ≤ max_requests),
         <[client_key := mkBucket (window_start bucket) count]> buckets)
  | None => (true, <[client_key := mkBucket now 1]> buckets)
  end.

(** The same key asked at each of the instants of [times], in order. *)
Fixpoint calls (times : list Z) (client_key : string)
  (max_requests window_seconds : Z) (buckets : t) : list bool * t :=
  match times with
  | [] => ([], buckets)
  | now :: times' =>
      let '(allowed, buckets) :=
        is_allowed now client_key max_requests window_seconds buckets in
      let '(rest, buckets) :=
        calls times' client_key max_requests window_seconds buckets in
      (allowed :: rest, buckets)
  end.

End RateLimiter.

(** ** middleware/secuirty.py *)

Module SecurityMiddleware.

(** "Different limits for different endpoints": [(max_requests, window)]. *)
Definition limits (request : Request.t) : Z * Z :=
  if startswith (Request.path request) "/documents/upload" then (10, 3600)
  else if startswith (Request.path request) "/auth/" then (5, 3600)
  else (1000, 3600).

(** "Security headers": the five assignments, in source order. *)
Definition add_security_headers (response : Response.t) : Response.t :=
  let response :=
    Response.set_header "X-Content-Type-Options" "nosniff" response in
  let response := Response.set_header "X-Frame-Options" "DENY" response in
  let response :=
    Response.set_header "X-XSS-Protection" "1; mode=block" response in
  let response :=
    Response.set_header "Strict-Transport-Security"
      "max-age=31536000; includeSubDomains" response in
  let response :=
    Response.set_header "Content-Security-Policy" "default-src 'self'"
      response in
  response.

(** [dispatch].  The module-level [rate_limiter] is threaded as state next
    to the state of the rest of the application; [get_client_ip] (also of
    the absent [utils/security.py]) and the clock are arguments. *)
Definition dispatch {W : Type} (get_client_ip : Request.t → string)
  (now : Z) (request : Request.t) (call_next : Handler W)
  (state : RateLimiter.t * W) : Response.t * (RateLimiter.t * W) :=
  let '(rate_limiter, w) := state in
  let client_ip := get_client_ip request in
  let '(max_requests, window) := limits request in
  let '(allowed, rate_limiter) :=
    RateLimiter.is_allowed now client_ip max_requests window rate_limiter in
  if negb allowed then
    (JSONResponse 429 "Rate limit exceeded", (rate_limiter, w))
  else
    let '(response, w) := call_next request w in
    (add_security_headers response, (rate_limiter, w)).

End SecurityMiddleware.

Module CSRFMiddleware.

Definition dispatch {W : Type} (request : Request.t) (call_next : Handler W)
  (w : W) : Response.t * W :=
  if bool_decide (Request.method request ∈ ["GET"; "HEAD"; "OPTIONS"]) then
    call_next request w
  else if startswith (Request.path request) "/auth/" then
    call_next request w
  else
    let auth_header := Request.headers_get "Authorization" request in
    match auth_header with
    | Some value =>
        if truthy_str value then call_next request w
        else (JSONResponse 403
                "CSRF protection: Authorization header required", w)
    | None =>
        (JSONResponse 403 "CSRF protection: Authorization header required",
         w)
    end.

End CSRFMiddleware.

(** ** main.py: the middleware the application installs *)

Inductive Middleware : Set :=
| CORSMiddleware
| SecurityMiddlewareClass
| CSRFMiddlewareClass.

#[global] Instance Middleware_eq_dec : EqDecision Middleware.
Proof. solve_decision. Defined.

(** The [app.add_middleware(...)] calls of [main.py]: there is one. *)
Definition app_user_middleware : list Middleware := [CORSMiddleware].

(** ** The visibility rule in the words of the design document (§4.6)

    Admin: unrestricted.  ClinicAdmin / ClinicStaff: entries of the
    principal's clinic, or, when no clinic resolves, the principal's own
    entries.  Patient: own entries whose entity type is on the allow-list.
    Any other role: nothing. *)
Definition spec_role_permits (db : Session) (p : User.t) (e : AuditLog.t)
  : Prop :=
  match User.role p with
  | Some UserRole.ADMIN => True
  | Some UserRole.CLINIC_ADMIN | Some UserRole.CLINIC_STAFF =>
      match clinic_of_admin db p with
      | Some clinic => AuditLog.clinic_id e = Some (Clinic.id clinic)
      | None => AuditLog.user_id e = Some (User.id p)
      end
  | Some UserRole.PATIENT =>
      AuditLog.user_id e = Some (User.id p)
      ∧ (AuditLog.entity_type e = AuditEntityType.USER
         ∨ AuditLog.entity_type e = AuditEntityType.DOCUMENT)
  | None => False
  end.

(** ** A small database used by the examples

    Two clinics (7 and 9) with their administrators, a staff member who
    administers no clinic, two patients and a principal whose role is not
    a member of [UserRole]. *)
Module Scenario.

Definition user (id : Z) (email : string) (role : option UserRole.t)
  : User.t :=
  User.mk id email "$2b$12$hash" "First" "Last" role true true.

Definition admin7 : User.t :=
  user 10 "admin7@clinic.test" (Some UserRole.CLINIC_ADMIN).
Definition admin9 : User.t :=
  user 11 "admin9@clinic.test" (Some UserRole.CLINIC_ADMIN).
Definition staff12 : User.t :=
  user 12 "staff@clinic.test" (Some UserRole.CLINIC_STAFF).
Definition patient5 : User.t :=
  user 5 "p5@mail.test" (Some UserRole.PATIENT).
Definition patient6 : User.t :=
  user 6 "p6@mail.test" (Some UserRole.PATIENT).
Definition root1 : User.t :=
  user 1 "root@mail.test" (Some UserRole.ADMIN).
Definition stranger : User.t := user 13 "x@mail.test" None.

Definition clinic7 : Clinic.t := Clinic.mk 7 "North" "LIC-7" (Some 10) true.
Definition clinic9 : Clinic.t := Clinic.mk 9 "South" "LIC-9" (Some 11) true.

Definition entry (id : Z) (user_id : option Z) (action : AuditAction.t)
  (entity_type : AuditEntityType.t) (clinic_id : option Z) (created_at : Z)
  : AuditLog.t :=
  AuditLog.mk id user_id None None action entity_type None None clinic_id
    None "entry" None None None true None created_at.

(** An administrator of clinic 7 updated a patient record. *)
Definition e1 : AuditLog.t :=
  entry 1 (Some 10) AuditAction.UPDATE AuditEntityType.PATIENT (Some 7) 100.
(** Patient 5 viewed a document of theirs, held by clinic 7. *)
Definition e2 : AuditLog.t :=
  entry 2 (Some 5) AuditAction.VIEW AuditEntityType.DOCUMENT (Some 7) 200.
(** The staff member uploaded a document, recorded under clinic 9. *)
Definition e3 : AuditLog.t :=
  entry 3 (Some 12) AuditAction.UPLOAD AuditEntityType.DOCUMENT (Some 9) 300.
(** A failed login: no actor, no clinic. *)
Definition e4 : AuditLog.t :=
  entry 4 None AuditAction.LOGIN AuditEntityType.USER None 400.

Definition patient_row5 : Patient.t := Patient.mk 50 (Some 5) (Some 7) None.

Definition document (id : Z) (patient_id clinic_id : option Z)
  (file_path : string) : Document.t :=
  Document.mk id patient_id clinic_id "stored.pdf" "scan.pdf" file_path 1024
    "application/pdf" DocumentType.LAB_REPORT DocumentStatus.UPLOADED None.

Definition doc70 : Document.t :=
  document 70 (Some 50) (Some 7) "uploads/documents/a.pdf".
Definition doc90 : Document.t :=
  document 90 None (Some 9) "uploads/documents/b.pdf".

Definition db : Session :=
  mkSession [root1; patient5; patient6; admin7; admin9; staff12; stranger]
            [clinic7; clinic9] [patient_row5] [doc70; doc90]
            [e1; e2; e3; e4].

End Scenario.

(** ** config.py *)

Module Settings.

Record t : Type := mk {
  database_url : string;
  secret_key : string;
  algorithm : string;
  access_token_expire_minutes : Z
}.

(** What [BaseSettings] reads: the process environment and the [.env]
    file named by [Config.env_file].  Names are matched without regard to
    case, so both tables are keyed by the lower-cased name. *)
Record Sources : Type := mkSources {
  environ : gmap string string;
  env_file : gmap string string
}.

Inductive ErrorDetail : Type :=
| missing (field : string)
| int_parsing (field : string)
| extra_forbidden (name : string).

(** The names of the declared fields. *)
Definition fields : list string :=
  ["database_url"; "secret_key"; "algorithm"; "access_token_expire_minutes"].

(** The environment takes precedence over the [.env] file. *)
Definition field_value (src : Sources) (field : string) : option string :=
  match environ src !! field with
  | Some v => Some v
  | None => env_file src !! field
  end.

(** A field declared [name: str] without default. *)
Definition required_str (src : Sources) (field : string)
  : string + list ErrorDetail :=
  match field_value src field with
  | Some v => inl v
  | None => inr [missing field]
  end.

(** A field declared [name: str = default]. *)
Definition default_str (src : Sources) (field value : string) : string :=
  match field_value src field with
  | Some v => v
  | None => value
  end.

(** A field declared [name: int = default]; [parse_int] is the library's
    coercion of a string to an integer. *)
Definition default_int (parse_int : string → option Z) (src : Sources)
  (field : string) (value : Z) : Z + list ErrorDetail :=
  match field_value src field with
  | Some v =>
      match parse_int v with
      | Some n => inl n
      | None => inr [int_parsing field]
      end
  | None => inl value
  end.

(** Names of the [.env] file that are no field: the settings class keeps
    the library's default [extra = 'forbid'], which rejects them. *)
Definition extra_inputs (src : Sources) : list ErrorDetail :=
  extra_forbidden <$>
    filter (λ name, name ∉ fields) (fst <$> map_to_list (env_file src)).

Definition errors_of {A : Type} (v : A + list ErrorDetail)
  : list ErrorDetail :=
  match v with inl _ => [] | inr es => es end.

(** [Settings()]: every field is validated and the errors are collected;
    the object exists only when there is none ([ValidationError]
    otherwise). *)
Definition init (parse_int : string → option Z) (src : Sources)
  : t + list ErrorDetail :=
  let database_url := required_str src "database_url" in
  let secret_key := required_str src "secret_key" in
  let algorithm := default_str src "algorithm" "HS256" in
  let access_token_expire_minutes :=
    default_int parse_int src "access_token_expire_minutes" 30 in
  match database_url, secret_key, access_token_expire_minutes,
        extra_inputs src with
  | inl url, inl key, inl minutes, [] => inl (mk url key algorithm minutes)
  | _, _, _, extras =>
      inr (errors_of database_url ++ errors_of secret_key
           ++ errors_of access_token_expire_minutes ++ extras)
  end.

End Settings.

(** [settings = Settings()] runs when [config] is imported, which
    [database] and through it [main] do first: the application object
    exists only if the settings do. *)
Inductive Startup : Type :=
| Serving (settings : Settings.t)
| Crashed (errors : list Settings.ErrorDetail).

Definition import_main (parse_int : string → option Z)
  (src : Settings.Sources) : Startup :=
  match Settings.init parse_int src with
  | inl settings => Serving settings
  | inr errors => Crashed errors
  end.

(** ** utils/auth.py: tokens *)

Module TokenService.

(** §3: a token encodes subject, issue time and expiry; §8 adds issue
    metadata that makes two tokens of one instant differ. *)
Record Claims : Type := mkClaims {
  sub : string;
  iat : Z;
  exp : Z;
  salt : string
}.

#[global] Instance Claims_eq_dec : EqDecision Claims.
Proof. solve_decision. Defined.

Inductive TokenError : Set := TokenMalformed | TokenInvalid | TokenExpired.

(** The design fixes no signing algorithm (§1): a scheme is a signing
    function of key, algorithm name and claims, and an encoding of signed
    claims into bearer strings that decoding inverts. *)
Record Scheme : Type := mkScheme {
  bearer : Type;
  sign : string → string → Claims → string;
  encode : Claims → string → bearer;
  decode : bearer → option (Claims * string);
  decode_encode : ∀ claims signature,
    decode (encode claims signature) = Some (claims, signature)
}.

(** Modelled from the spec: [utils/auth.py], which defines
    [create_access_token], is not in the source tree.  §4.2 [issue]:
    "embeds subject_id, issue time, and issue_time + ttl; signs with a
    process-wide secret key loaded once at startup".  The key and the
    algorithm are those of the settings object; the clock reading and the
    salt are arguments; [ttl] is in seconds. *)
Definition create_access_token (S : Scheme) (key algorithm : string)
  (now : Z) (salt : string) (subject : string) (ttl : Z) : bearer S :=
  let claims := mkClaims subject now (now + ttl) salt in
  encode S claims (sign S key algorithm claims).

(** Modelled from the spec: [utils/auth.py], which defines [verify_token],
    is not in the source tree.  §4.2 [verify]: "fails with TokenMalformed
    if the encoding cannot be parsed, TokenInvalid if the signature does
    not match, TokenExpired if current time exceeds the embedded
    expiry". *)
Definition verify_token (S : Scheme) (key algorithm : string) (now : Z)
  (token : bearer S) : string + TokenError :=
  match decode S token with
  | None => inr TokenMalformed
  | Some (claims, signature) =>
      if decide (signature = sign S key algorithm claims) then
        if decide (exp claims < now) then inr TokenExpired
        else inl (sub claims)
      else inr TokenInvalid
  end.

End TokenService.

(** ** routers/auth.py *)

Module Auth.

(** The [Token] schema, with the fields of the user the claims need. *)
Record Token (S : TokenService.Scheme) : Type := mkToken {
  access_token : TokenService.bearer S;
  token_type : string;
  expires_in : Z;
  user : User.t
}.

Arguments mkToken {S} access_token token_type expires_in user.
Arguments access_token {S} t.
Arguments token_type {S} t.
Arguments expires_in {S} t.
Arguments user {S} t.

(** [timedelta(minutes=m)], in seconds. *)
Definition timedelta_minutes (m : Z) : Z := 60 * m.

(** [login].  [verify_password] is of the absent [utils/auth.py] and is an
    argument, like the clock and the salt of the token. *)
Definition login (S : TokenService.Scheme)
  (verify_password : string → string → bool) (settings : Settings.t)
  (now : Z) (salt : string) (db : Session) (username password : string)
  : result (Token S) :=
  match head (filter (λ u, User.email u = username) (users db)) with
  | None => HTTPException 401 "Incorrect email or password"
  | Some user =>
      if negb (verify_password password (User.hashed_password user)) then
        HTTPException 401 "Incorrect email or password"
      else if negb (User.is_active user) then
        HTTPException 400 "Inactive user"
      else
        let access_token_expires :=
          timedelta_minutes (Settings.access_token_expire_minutes settings) in
        let access_token :=
          TokenService.create_access_token S (Settings.secret_key settings)
            (Settings.algorithm settings) now salt (User.email user)
            access_token_expires in
        Ok (mkToken access_token "bearer"
              (Settings.access_token_expire_minutes settings * 60) user)
  end.

End Auth.

(** ** routers/documents.py *)

Module Documents.

(** The state the document routes work on: the database and the paths
    that exist in the upload directory. *)
Record State : Type := mkState {
  db : Session;
  files : gset string
}.

(** The part of [UploadFile] the route reads. *)
Record UploadFile : Type := mkUploadFile {
  filename : option string;
  content_type : option string
}.

(** How [save_upload_file] (of the absent [utils/file_handler.py]) ended:
    with [(file_path, unique_filename, file_size)], with an
    [HTTPException], or with another exception. *)
Inductive SaveOutcome : Type :=
| saved (file_path unique_filename : string) (file_size : Z)
| save_refused (status_code : Z) (detail : string)
| save_failed (message : string).

(** schemas/document.py, [DocumentUploadResponse]. *)
Record DocumentUploadResponse : Type := mkUploadResponse {
  document : Document.t;
  upload_url : option string;
  processing_started : bool;
  estimated_processing_time : option Z
}.

(** The fields of [DocumentListResponse] that [get_documents] passes. *)
Record DocumentListResponse : Type := mkListResponse {
  documents_ : list Document.t;
  total : Z;
  page : Z;
  per_page : Z
}.

Record FileResponse : Type := mkFileResponse {
  path : string;
  download_name : string;
  media_type : string
}.

(** [value or fallback] on an optional string. *)
Definition str_or (value : option string) (fallback : string) : string :=
  match value with
  | Some v => if truthy_str v then v else fallback
  | None => fallback
  end.

(** The primary key the database gives a new row. *)
Definition next_document_id (db : Session) : Z :=
  1 + foldr Z.max 0 (Document.id <$> documents db).

Definition add_document (d : Document.t) (db : Session) : Session :=
  mkSession (users db) (clinics db) (patients db) (documents db ++ [d])
            (audit_logs db).

(** "Get clinic_id based on user role" *)
Definition upload_clinic_id (db : Session) (current_user : User.t)
  : option Z :=
  match User.role current_user with
  | Some UserRole.CLINIC_ADMIN | Some UserRole.CLINIC_STAFF =>
      match clinic_of_admin db current_user with
      | None => Some 1
      | Some clinic => Some (Clinic.id clinic)
      end
  | _ => None
  end.

(** An exception that is not an [HTTPException], raised inside a route,
    is answered by the framework with status 500. *)
Definition internal_server_error {A : Type} : result A :=
  HTTPException 500 "Internal Server Error".

(** schemas/document.py, [DocumentResponse]: the fields declared without
    a default, which [from_orm] reads off the object it is given. *)
Definition DocumentResponse_required : list string :=
  [ "original_filename"; "id"; "patient_id"; "clinic_id"; "file_path";
    "mime_type"; "file_size"; "file_hash"; "status"; "upload_date";
    "processed_date"; "created_at"; "updated_at" ].

(** models/document.py, [Document]: its columns and relationships. *)
Definition Document_attributes : list string :=
  [ "id"; "patient_id"; "clinic_id"; "filename"; "original_filename";
    "file_path"; "file_size"; "mime_type"; "document_type"; "status";
    "upload_date"; "processed_date"; "notes"; "created_at"; "updated_at";
    "patient"; "clinic"; "extractions" ].

(** [DocumentResponse.from_orm(document)]: under pydantic 2 (which
    [pydantic_settings] in config.py needs) a field declared without a
    default is required, [Optional] or not, and validation raises when
    such a field is not an attribute of the object.  [file_hash] is none
    of [Document]'s, so this is so whatever the row holds. *)
Definition from_orm (document : Document.t) : result Document.t :=
  if decide (DocumentResponse_required ⊆ Document_attributes)
  then Ok document
  else internal_server_error.

(** [[DocumentResponse.from_orm(doc) for doc in documents]] *)
Fixpoint from_orm_all (documents : list Document.t)
  : result (list Document.t) :=
  match documents with
  | [] => Ok []
  | doc :: documents =>
      match from_orm doc with
      | Ok response =>
          match from_orm_all documents with
          | Ok responses => Ok (response :: responses)
          | HTTPException s d => HTTPException s d
          end
      | HTTPException s d => HTTPException s d
      end
  end.

(** schemas/document.py, [DocumentListResponse]: the fields declared
    without a default, and the keywords [get_documents] passes to the
    constructor. *)
Definition DocumentListResponse_required : list string :=
  [ "documents"; "total"; "page"; "per_page"; "has_next"; "has_previous" ].

Definition get_documents_keywords : list string :=
  [ "documents"; "total"; "page"; "per_page" ].

(** [DocumentListResponse(documents=..., total=..., page=...,
    per_page=...)]: validation raises for the required fields that are
    not passed. *)
Definition new_DocumentListResponse (documents : list Document.t)
  (total page per_page : Z) : result DocumentListResponse :=
  if decide (DocumentListResponse_required ⊆ get_documents_keywords)
  then Ok (mkListResponse documents total page per_page)
  else internal_server_error.

(** [upload_document].  [current_user] is what the [require_clinic_access]
    dependency (of the absent [utils/deps.py]) let through.  The row is
    committed before the response is built, so the state keeps it when
    building the response raises. *)
Definition upload_document (st : State) (current_user : User.t)
  (file : UploadFile) (outcome : SaveOutcome) (patient_id : option Z)
  (document_type : option DocumentType.t) (notes : option string)
  : result DocumentUploadResponse * State :=
  match outcome with
  | save_refused status detail => (HTTPException status detail, st)
  | save_failed msg => (HTTPException 500 ("Upload failed: " +:+ msg), st)
  | saved file_path unique_filename file_size =>
      let st := mkState (db st) ({[file_path]} ∪ files st) in
      let clinic_id := upload_clinic_id (db st) current_user in
      match truthy_int clinic_id with
      | None =>
          (HTTPException 400 "Cannot determine clinic association", st)
      | Some clinic_id =>
          let patient :=
            match truthy_int patient_id with
            | Some pid =>
                Some (head (filter
                  (λ p, Patient.id p = pid
                        ∧ sql_eq (Patient.clinic_id p) clinic_id)
                  (patients (db st))))
            | None => None
            end in
          match patient with
          | Some None =>
              (HTTPException 404 "Patient not found in your clinic",
               mkState (db st) (files st ∖ {[file_path]}))
          | _ =>
              let document :=
                Document.mk (next_document_id (db st)) patient_id
                  (Some clinic_id) unique_filename
                  (str_or (filename file) "unknown") file_path file_size
                  (str_or (content_type file) "application/octet-stream")
                  (default DocumentType.OTHER document_type)
                  DocumentStatus.UPLOADED notes in
              let st := mkState (add_document document (db st)) (files st) in
              match from_orm document with
              | Ok response =>
                  (* [message=...] names no field of the schema *)
                  (Ok (mkUploadResponse response None false None), st)
              | HTTPException s d => (HTTPException s d, st)
              end
          end
      end
  end.

(** [Patient.user_id == current_user.id], [.first()]. *)
Definition patient_of_user (db : Session) (current_user : User.t)
  : option Patient.t :=
  head (filter (λ p, sql_eq (Patient.user_id p) (User.id current_user))
               (patients db)).

(** "Build query based on user role" *)
Definition role_query (db : Session) (current_user : User.t)
  (query : list Document.t) : result (list Document.t) :=
  match User.role current_user with
  | Some UserRole.PATIENT =>
      match patient_of_user db current_user with
      | None => HTTPException 404 "Patient profile not found"
      | Some patient =>
          Ok (filter (λ d, sql_eq (Document.patient_id d) (Patient.id patient))
                     query)
      end
  | Some UserRole.CLINIC_ADMIN | Some UserRole.CLINIC_STAFF =>
      match clinic_of_admin db current_user with
      | Some clinic =>
          Ok (filter (λ d, sql_eq (Document.clinic_id d) (Clinic.id clinic))
                     query)
      | None => Ok query
      end
  | _ => Ok query
  end.

(** "Apply filters" *)
Definition apply_filters (patient_id : option Z)
  (status : option DocumentStatus.t) (document_type : option DocumentType.t)
  (query : list Document.t) : list Document.t :=
  let query :=
    match truthy_int patient_id with
    | Some v => filter (λ d, sql_eq (Document.patient_id d) v) query
    | None => query
    end in
  let query :=
    match status with
    | Some v => filter (λ d, Document.status d = v) query
    | None => query
    end in
  let query :=
    match document_type with
    | Some v => filter (λ d, Document.document_type d = v) query
    | None => query
    end in
  query.

Definition get_documents (db : Session) (current_user : User.t)
  (page per_page : Z) (patient_id : option Z)
  (status : option DocumentStatus.t) (document_type : option DocumentType.t)
  : result DocumentListResponse :=
  if decide (Audit.valid_paging page per_page) then
    match role_query db current_user (documents db) with
    | Ok query =>
        let query := apply_filters patient_id status document_type query in
        let total := Z.of_nat (length query) in
        let offset := (page - 1) * per_page in
        let documents := offset_limit offset per_page query in
        match from_orm_all documents with
        | Ok responses => new_DocumentListResponse responses total page per_page
        | HTTPException s d => HTTPException s d
        end
    | HTTPException s d => HTTPException s d
    end
  else HTTPException 422 "Unprocessable Entity".

(** "Check permissions", shared by [get_document] and
    [download_document]: [None] when the document may be read. *)
Definition check_permissions (db : Session) (current_user : User.t)
  (document : Document.t) : option (Z * string) :=
  match User.role current_user with
  | Some UserRole.PATIENT =>
      match patient_of_user db current_user with
      | None => Some (403, "Access denied")
      | Some patient =>
          if decide (Document.patient_id document ≠ Some (Patient.id patient))
          then Some (403, "Access denied")
          else None
      end
  | Some UserRole.CLINIC_ADMIN | Some UserRole.CLINIC_STAFF =>
      match clinic_of_admin db current_user with
      | Some clinic =>
          if decide (Document.clinic_id document ≠ Some (Clinic.id clinic))
          then Some (403, "Access denied")
          else None
      | None => None
      end
  | _ => None
  end.

(** [db.query(Document).filter(Document.id == document_id).first()] *)
Definition find_document (db : Session) (document_id : Z)
  : option Document.t :=
  head (filter (λ d, Document.id d = document_id) (documents db)).

Definition get_document (db : Session) (current_user : User.t)
  (document_id : Z) : result Document.t :=
  match find_document db document_id with
  | None => HTTPException 404 "Document not found"
  | Some document =>
      match check_permissions db current_user document with
      | Some (status, detail) => HTTPException status detail
      | None => from_orm document
      end
  end.

Definition download_document (st : State) (current_user : User.t)
  (document_id : Z) : result FileResponse :=
  match find_document (db st) document_id with
  | None => HTTPException 404 "Document not found"
  | Some document =>
      match check_permissions (db st) current_user document with
      | Some (status, detail) => HTTPException status detail
      | None =>
          if decide (Document.file_path document ∈ files st) then
            Ok (mkFileResponse (Document.file_path document)
                  (Document.original_filename document)
                  (Document.mime_type document))
          else HTTPException 404 "File not found on server"
      end
  end.

End Documents.

(** ** The defensive headers in the words of the design document (§6)

    "no-sniff, deny-framing, XSS-protection, one-year HSTS, same-origin
    CSP", with the values the middleware writes. *)
Definition spec_security_headers : list (string * string) :=
  [ ("X-Content-Type-Options", "nosniff");
    ("X-Frame-Options", "DENY");
    ("X-XSS-Protection", "1; mode=block");
    ("Strict-Transport-Security", "max-age=31536000; includeSubDomains");
    ("Content-Security-Policy", "default-src 'self'") ].

Definition carries_security_headers (response : Response.t) : Prop :=
  Forall (λ kv, Response.header kv.1 response = Some kv.2)
         spec_security_headers.

#[global] Instance carries_security_headers_dec response
  : Decision (carries_security_headers response).
Proof. unfold carries_security_headers. apply _. Defined.

(** ** Sample requests and handlers used by the examples *)
Module HttpScenario.

Definition get_client_ip (request : Request.t) : string :=
  Request.client request.

Definition login_request : Request.t :=
  Request.mk "POST" "/auth/login"
    [("content-type", "application/x-www-form-urlencoded")] "10.0.0.1".

(** A state-changing request to a business route, without credentials. *)
Definition bare_delete : Request.t :=
  Request.mk "DELETE" "/documents/70" [("accept", "*/*")] "10.0.0.1".

(** The same request with a bearer string that is no valid token. *)
Definition forged_delete : Request.t :=
  Request.mk "DELETE" "/documents/70"
    [("accept", "*/*"); ("authorization", "Bearer not-a-token")] "10.0.0.1".

(** The same request with an [Authorization] header of empty value. *)
Definition empty_auth_delete : Request.t :=
  Request.mk "DELETE" "/documents/70"
    [("accept", "*/*"); ("authorization", "")] "10.0.0.1".

(** A downstream application that counts the requests that reach it and
    answers 401 unless the bearer string is the one it knows. *)
Definition guarded_app : Handler nat :=
  λ request served,
    match Request.headers_get "Authorization" request with
    | Some "Bearer good" => (JSONResponse 200 "ok", S served)
    | _ => (JSONResponse 401 "Could not validate credentials", S served)
    end.

End HttpScenario.

(** ** Sample settings and a sample token scheme used by the examples *)
Module ConfigScenario.

Fixpoint digits (s : string) (acc : Z) : option Z :=
  match s with
  | EmptyString => Some acc
  | String c s' =>
      let n := nat_of_ascii c in
      if (48 <=? n)%nat && (n <=? 57)%nat
      then digits s' (10 * acc + Z.of_nat (n - 48))
      else None
  end.

(** Plain decimal numerals, which every integer coercion accepts. *)
Definition parse_decimal (s : string) : option Z :=
  match s with
  | EmptyString => None
  | _ => digits s 0
  end.

(** Database URL and signing key in the environment, nothing else. *)
Definition complete : Settings.Sources :=
  Settings.mkSources
    {[ "database_url" := "sqlite:///./medikeep.db";
       "secret_key" := "s3cr3t" ]} ∅.

(** The signing key only, in the [.env] file. *)
Definition key_only : Settings.Sources :=
  Settings.mkSources ∅ {[ "secret_key" := "s3cr3t" ]}.

(** The database URL only. *)
Definition url_only : Settings.Sources :=
  Settings.mkSources {[ "database_url" := "sqlite:///./medikeep.db" ]} ∅.

(** A scheme whose bearer value is the pair of claims and signature and
    whose signature spells out key, algorithm and signed fields: enough
    to run the token service, not a cryptographic construction. *)
Definition plain_sign (key algorithm : string) (c : TokenService.Claims)
  : string :=
  algorithm +:+ "/" +:+ key +:+ "/" +:+ TokenService.sub c +:+ "/"
    +:+ TokenService.salt c.

Definition plain : TokenService.Scheme :=
  TokenService.mkScheme (TokenService.Claims * string) plain_sign pair Some
    (λ _ _, eq_refl).

Definition accept_any (password hashed : string) : bool := true.

End ConfigScenario.

(** ** routers/audit.py: the caller's own activity *)

Module Activity.

(** [Query(1, ge=1)] and [Query(20, ge=1, le=50)] *)
Definition valid_paging (page per_page : Z) : Prop :=
  1 ≤ page ∧ 1 ≤ per_page ∧ per_page ≤ 50.

#[global] Instance valid_paging_dec page per_page
  : Decision (valid_paging page per_page).
Proof. unfold valid_paging. apply _. Defined.

Definition get_my_activity (db : Session) (current_user : User.t)
  (page per_page : Z) : result Audit.AuditLogListResponse :=
  if decide (valid_paging page per_page) then
    let query :=
      filter (λ e, sql_eq (AuditLog.user_id e) (User.id current_user))
             (audit_logs db) in
    let total := Z.of_nat (length query) in
    let offset := (page - 1) * per_page in
    let logs :=
      offset_limit offset per_page (merge_sort Audit.newest_first query) in
    Ok (Audit.mkResponse logs total page per_page)
  else HTTPException 422 "Unprocessable Entity".

End Activity.

(** The same request for another page. *)
Definition with_page (f : Audit.Params) (page : Z) : Audit.Params :=
  Audit.mkParams page (Audit.p_per_page f) (Audit.p_action f)
    (Audit.p_entity_type f) (Audit.p_user_id f) (Audit.p_clinic_id f)
    (Audit.p_patient_id f) (Audit.p_date_from f) (Audit.p_date_to f)
    (Audit.p_success f).

(** The entries of pages 1 to [n] of a listing, in the order read; a page
    that is refused contributes nothing. *)
Definition read_pages (db : Session) (current_user : User.t)
  (f : Audit.Params) (n : nat) : list AuditLog.t :=
  mjoin ((λ k : nat,
            match Audit.get_audit_logs db current_user
                    (with_page f (Z.of_nat k + 1)) with
            | Ok r => Audit.logs r
            | HTTPException _ _ => []
            end) <$> seq 0 n).

(** The integers the database driver binds as query parameters: 64 bits,
    signed.  Past them the driver raises before the query is run. *)
Definition int64 (n : Z) : Prop := - 2 ^ 63 ≤ n < 2 ^ 63.

(** The integers bound for a listing request, its offset and the
    identifiers it filters by, are in that range. *)
Definition bound_parameters (f : Audit.Params) : Prop :=
  int64 ((Audit.p_page f - 1) * Audit.p_per_page f)
  ∧ (∀ v, Audit.p_user_id f = Some v → int64 v)
  ∧ (∀ v, Audit.p_clinic_id f = Some v → int64 v)
  ∧ (∀ v, Audit.p_patient_id f = Some v → int64 v).

(** ** routers/documents.py: deletion *)

Module DocumentDeletion.



End DocumentDeletion.

(** ** routers/patients.py: deletion *)

Module Patients.

Definition remove_patient (patient : Patient.t) (db : Session) : Session :=
  mkSession (users db) (clinics db)
    (filter (λ p, Patient.id p ≠ Patient.id patient) (patients db))
    (documents db) (audit_logs db).

(** [delete_patient].  [current_user] is what [require_clinic_access] let
    through; the answer is the message of the returned object. *)
Definition delete_patient (db : Session) (current_user : User.t)
  (patient_id : Z) : result string * Session :=
  match head (filter (λ p, Patient.id p = patient_id) (patients db)) with
  | None => (HTTPException 404 "Patient not found", db)
  | Some patient =>
      let denied :=
        match clinic_of_admin db current_user with
        | Some clinic =>
            bool_decide (Patient.clinic_id patient ≠ Some (Clinic.id clinic))
        | None => false
        end in
      if denied then (HTTPException 403 "Access denied", db)
      else
        let document_count :=
          Z.of_nat (length (filter
            (λ d, sql_eq (Document.patient_id d) (Patient.id patient))
            (documents db))) in
        if decide (document_count > 0) then
          (HTTPException 400
             ("Cannot delete patient with " +:+ pretty document_count
              +:+ " documents. Delete or reassign documents first."), db)
        else (Ok "Patient deleted successfully", remove_patient patient db)
  end.

End Patients.

(** ** routers/auth.py: registration *)

Module Registration.

(** The [RegisterRequest] schema. *)
Record RegisterRequest : Type := mkRequest {
  email : string;
  password : string;
  first_name : string;
  last_name : string;
  role : UserRole.t;
  clinic_name : option string;
  clinic_license : option string
}.

(** [not value] on an optional string. *)
Definition falsy (value : option string) : bool :=
  match value with
  | Some v => negb (truthy_str v)
  | None => true
  end.

(** The primary keys the database gives new rows. *)
Definition next_user_id (db : Session) : Z :=
  1 + foldr Z.max 0 (User.id <$> users db).

Definition next_clinic_id (db : Session) : Z :=
  1 + foldr Z.max 0 (Clinic.id <$> clinics db).

Definition add_user (u : User.t) (db : Session) : Session :=
  mkSession (users db ++ [u]) (clinics db) (patients db) (documents db)
    (audit_logs db).

Definition add_clinic (c : Clinic.t) (db : Session) : Session :=
  mkSession (users db) (clinics db ++ [c]) (patients db) (documents db)
    (audit_logs db).

(** [register].  [get_password_hash] is of the absent [utils/auth.py] and
    is an argument.  The user is committed before the clinic is looked at;
    [license_number] is a unique column, and the commit of a second clinic
    with a license that is taken raises, which the framework answers
    with 500. *)
Definition register (get_password_hash : string → string)
  (user_data : RegisterRequest) (db : Session) : result User.t * Session :=
  match head (filter (λ u, User.email u = email user_data) (users db)) with
  | Some _ => (HTTPException 400 "Email already registered", db)
  | None =>
      let hashed_password := get_password_hash (password user_data) in
      let db_user :=
        User.mk (next_user_id db) (email user_data) hashed_password
          (first_name user_data) (last_name user_data)
          (Some (role user_data)) true false in
      let db := add_user db_user db in
      if decide (role user_data = UserRole.CLINIC_ADMIN) then
        if falsy (clinic_name user_data) || falsy (clinic_license user_data)
        then
          (HTTPException 400
             "Clinic name and license required for clinic admin", db)
        else
          let name := default "" (clinic_name user_data) in
          let license := default "" (clinic_license user_data) in
          if decide (license ∈ Clinic.license_number <$> clinics db) then
            (HTTPException 500 "Internal Server Error", db)
          else
            let db_clinic :=
              Clinic.mk (next_clinic_id db) name license
                (Some (User.id db_user)) true in
            (Ok db_user, add_clinic db_clinic db)
      else (Ok db_user, db)
  end.

End Registration.

(** ** routers/clinic.py and routers/patients.py: ages *)

Module Demographics.

(** A [datetime.date]. *)
Record date : Type := mkDate {
  year : Z;
  month : Z;
  day : Z
}.

(** The age computed in the loops over [patients_with_dob]. *)
Definition age_on (today date_of_birth : date) : Z :=
  let age := year today - year date_of_birth in
  if decide (month date_of_birth > month today
             ∨ (month date_of_birth = month today
                ∧ day date_of_birth > day today))
  then age - 1
  else age.

(** The [if]/[elif] chain of [_get_patient_demographics] (clinic.py). *)
Definition clinic_age_group (age : Z) : string :=
  if decide (age ≤ 18) then "0-18"
  else if decide (age ≤ 35) then "19-35"
  else if decide (age ≤ 55) then "36-55"
  else if decide (age ≤ 70) then "56-70"
  else "71+".

(** The [if]/[elif] chain of [get_patient_stats] (patients.py). *)
Definition stats_age_group (age : Z) : string :=
  if decide (age ≤ 18) then "0-18"
  else if decide (age ≤ 30) then "19-30"
  else if decide (age ≤ 50) then "31-50"
  else if decide (age ≤ 70) then "51-70"
  else "70+".

(** [age_groups[key] += 1] on a dictionary that has the key. *)
Definition increment (key : string) (age_groups : gmap string Z)
  : gmap string Z :=
  alter (λ n, n + 1) key age_groups.

(** The loop of clinic.py over the dates of birth of the selected
    patients, from the dictionary it starts with. *)
Definition clinic_age_distribution (today : date)
  (dates_of_birth : list date) : gmap string Z :=
  foldl (λ age_groups dob,
           increment (clinic_age_group (age_on today dob)) age_groups)
        {[ "0-18" := 0; "19-35" := 0; "36-55" := 0; "56-70" := 0;
           "71+" := 0 ]}
        dates_of_birth.

(** The loop of patients.py. *)
Definition stats_age_distribution (today : date)
  (dates_of_birth : list date) : gmap string Z :=
  foldl (λ age_groups dob,
           increment (stats_age_group (age_on today dob)) age_groups)
        {[ "0-18" := 0; "19-30" := 0; "31-50" := 0; "51-70" := 0;
           "70+" := 0 ]}
        dates_of_birth.

(** Calendar order of dates. *)
Definition date_le (a b : date) : Prop :=
  year a < year b
  ∨ (year a = year b
     ∧ (month a < month b ∨ (month a = month b ∧ day a ≤ day b))).

End Demographics.

(** ** An invariant of the document table

    Every document that names a patient names one of its own clinic. *)
Definition patients_of_own_clinic (db : Session) : Prop :=
  ∀ d pid, d ∈ documents db → Document.patient_id d = Some pid →
    ∃ patient, patient ∈ patients db ∧ Patient.id patient = pid
               ∧ Patient.clinic_id patient = Document.clinic_id d.

(** ** More sample data *)
Module MoreScenario.

(** Patient 5 changed a patient record: an entity outside the allow-list
    of the audit listing. *)
Definition e5 : AuditLog.t :=
  Scenario.entry 5 (Some 5) AuditAction.UPDATE AuditEntityType.PATIENT
    (Some 7) 500.

Definition db : Session :=
  mkSession (users Scenario.db) (clinics Scenario.db) (patients Scenario.db)
    (documents Scenario.db) (audit_logs Scenario.db ++ [e5]).

Definition files : gset string :=
  {[ "uploads/documents/a.pdf"; "uploads/documents/b.pdf" ]}.

Definition st : Documents.State := Documents.mkState Scenario.db files.

Definition hash (password : string) : string := "h:" +:+ password.

Definition check (password hashed : string) : bool :=
  bool_decide (hashed = hash password).

Definition new_admin : Registration.RegisterRequest :=
  Registration.mkRequest "new@clinic.test" "Passw0rd" "Ada" "Ng"
    UserRole.CLINIC_ADMIN (Some "East") (Some "LIC-3").

Definition careless_admin : Registration.RegisterRequest :=
  Registration.mkRequest "late@clinic.test" "Passw0rd" "Bo" "Li"
    UserRole.CLINIC_ADMIN None None.

Definition settings : Settings.t :=
  Settings.mk "sqlite:///./medikeep.db" "s3cr3t" "HS256" 30.

Definition framed : Response.t :=
  Response.mk 200
    {[ "x-frame-options" := "SAMEORIGIN"; "set-cookie" := "sid=1" ]} "ok".

End MoreScenario.

(** * Properties *)

(** ** The routes on the sample data *)

(** The administrator of the system sees the whole table, newest first. *)
Example admin_listing :
  Audit.get_audit_logs Scenario.db Scenario.root1 (Audit.no_filters 1 20)
  = Ok (Audit.mkResponse
          [Scenario.e4; Scenario.e3; Scenario.e2; Scenario.e1] 4 1 20).
Proof. reflexivity. Qed.

(** The second page of size one of the same listing. *)
Example admin_listing_page_2 :
  Audit.get_audit_logs Scenario.db Scenario.root1 (Audit.no_filters 2 1)
  = Ok (Audit.mkResponse [Scenario.e3] 4 2 1).
Proof. reflexivity. Qed.

(** [user_id=0] is dropped by [if user_id:], [clinic_id=9] is applied. *)
Example zero_filter_is_ignored :
  Audit.get_audit_logs Scenario.db Scenario.root1
    (Audit.mkParams 1 20 None None (Some 0) (Some 9) None None None None)
  = Ok (Audit.mkResponse [Scenario.e3] 1 1 20).
Proof. reflexivity. Qed.

Example page_zero_is_refused :
  Audit.get_audit_logs Scenario.db Scenario.root1 (Audit.no_filters 0 20)
  = HTTPException 422 "Unprocessable Entity".
Proof. reflexivity. Qed.

Example limits_by_path :
  SecurityMiddleware.limits HttpScenario.login_request = (5, 3600)
  ∧ SecurityMiddleware.limits HttpScenario.bare_delete = (1000, 3600)
  ∧ SecurityMiddleware.limits
      (Request.mk "POST" "/documents/upload" [] "10.0.0.1") = (10, 3600).
Proof. repeat split. Qed.

Example header_lookup_ignores_case :
  Request.headers_get "Authorization" HttpScenario.forged_delete
  = Some "Bearer not-a-token"
  ∧ Request.headers_get "AUTHORIZATION" HttpScenario.bare_delete = None.
Proof. split; reflexivity. Qed.

Example settings_defaults :
  Settings.init ConfigScenario.parse_decimal ConfigScenario.complete
  = inl (Settings.mk "sqlite:///./medikeep.db" "s3cr3t" "HS256" 30).
Proof. reflexivity. Qed.

Example settings_without_anything :
  Settings.init ConfigScenario.parse_decimal (Settings.mkSources ∅ ∅)
  = inr [Settings.missing "database_url"; Settings.missing "secret_key"].
Proof. reflexivity. Qed.

(** The administrator of clinic 9 may not read the document of clinic 7;
    the administrator of clinic 7 passes the check, and the route fails
    while it builds the response. *)
Example clinic_scope_on_documents :
  Documents.get_document Scenario.db Scenario.admin9 70
  = HTTPException 403 "Access denied"
  ∧ Documents.check_permissions Scenario.db Scenario.admin7 Scenario.doc70
    = None
  ∧ Documents.get_document Scenario.db Scenario.admin7 70
    = HTTPException 500 "Internal Server Error".
Proof. repeat split; vm_compute; reflexivity. Qed.

(** ** Paging and sorting *)

Section paging.
Context {A : Type}.
Implicit Types (l : list A) (x : A).

Lemma elem_of_offset_limit offset per_page l x :
  x ∈ offset_limit offset per_page l → x ∈ l.
Proof.
  unfold offset_limit. intros Hin.
  apply elem_of_take in Hin as (i & Hi & _).
  rewrite lookup_drop in Hi. by eapply list_elem_of_lookup_2.
Qed.

(** Every row of a listing is on one of its pages. *)
Lemma elem_of_some_page per_page l x :
  1 ≤ per_page → x ∈ l →
  ∃ page, 1 ≤ page ∧ x ∈ offset_limit ((page - 1) * per_page) per_page l.
Proof.
  intros Hn Hin. apply list_elem_of_lookup_1 in Hin as [i Hi].
  set (n := Z.to_nat per_page).
  assert (Hn0 : n ≠ 0%nat) by (unfold n; lia).
  exists (Z.of_nat (i / n) + 1). split; [lia|].
  unfold offset_limit. fold n.
  replace (Z.to_nat ((Z.of_nat (i / n) + 1 - 1) * per_page))
    with (n * (i / n))%nat by (unfold n; nia).
  apply elem_of_take. exists (i mod n)%nat. split.
  - rewrite lookup_drop. by rewrite <- Nat.div_mod_eq.
  - by apply Nat.mod_upper_bound.
Qed.

End paging.

Lemma elem_of_newest_first_sort (l : list AuditLog.t) (e : AuditLog.t) :
  e ∈ merge_sort Audit.newest_first l ↔ e ∈ l.
Proof. by rewrite merge_sort_Permutation. Qed.

(** ** The audit listing *)

Section audit_listing.
Import Audit.
Implicit Types (db : Session) (p : User.t) (f : Params) (e : AuditLog.t).

Lemma elem_of_filter_if {B : Type} (param : option B) cond
  (query : list AuditLog.t) e :
  e ∈ filter_if param cond query → e ∈ query.
Proof.
  destruct param as [v|]; simpl; [|done].
  rewrite list_elem_of_filter. tauto.
Qed.

Lemma length_filter_if {B : Type} (param : option B) cond
  (query : list AuditLog.t) :
  (length (filter_if param cond query) ≤ length query)%nat.
Proof. destruct param; simpl; [apply length_filter | done]. Qed.

(** A caller filter only ever removes rows. *)
Lemma apply_filters_elem_of f (query : list AuditLog.t) e :
  e ∈ apply_filters f query → e ∈ query.
Proof.
  unfold apply_filters. intros H.
  repeat (apply elem_of_filter_if in H). exact H.
Qed.

Lemma apply_filters_length f (query : list AuditLog.t) :
  (length (apply_filters f query) ≤ length query)%nat.
Proof.
  unfold apply_filters.
  repeat (etrans; [apply length_filter_if|]). done.
Qed.

Lemma apply_filters_none page per_page (query : list AuditLog.t) :
  apply_filters (no_filters page per_page) query = query.
Proof. reflexivity. Qed.

(** The role filter selects exactly the rows the design allows. *)
Lemma role_filter_spec db p (query scoped : list AuditLog.t) e :
  role_filter db p query = Ok scoped →
  e ∈ scoped ↔ spec_role_permits db p e ∧ e ∈ query.
Proof.
  unfold role_filter, spec_role_permits, sql_eq.
  destruct (User.role p) as [[]|]; try destruct (clinic_of_admin db p);
    intros [= <-]; rewrite ?list_elem_of_filter; simpl;
    rewrite ?elem_of_cons, ?elem_of_nil; tauto.
Qed.

Lemma role_filter_no_role db p (query : list AuditLog.t) :
  User.role p = None →
  role_filter db p query = HTTPException 403 "Access denied".
Proof. unfold role_filter. by intros ->. Qed.

(** What a successful listing returns, in terms of the selected query. *)
Lemma get_audit_logs_Ok db p f r :
  get_audit_logs db p f = Ok r →
  valid_paging (p_page f) (p_per_page f) ∧
  ∃ query, selected db p f = Ok query
    ∧ total r = Z.of_nat (length query)
    ∧ logs r = offset_limit ((p_page f - 1) * p_per_page f) (p_per_page f)
                 (merge_sort newest_first query).
Proof.
  unfold get_audit_logs. case_decide as Hv; [|done].
  destruct (selected db p f) as [query|] eqn:Hsel; [|done].
  intros [= <-]. split; [done|]. by exists query.
Qed.

Lemma get_audit_logs_elem_of db p f r e :
  get_audit_logs db p f = Ok r → e ∈ logs r →
  ∃ query, selected db p f = Ok query ∧ e ∈ query.
Proof.
  intros (_ & query & Hsel & _ & Hlogs)%get_audit_logs_Ok Hin.
  exists query. split; [done|].
  rewrite Hlogs in Hin. apply elem_of_offset_limit in Hin.
  by apply elem_of_newest_first_sort.
Qed.

Lemma selected_elem_of db p f (query : list AuditLog.t) e :
  selected db p f = Ok query → e ∈ query →
  spec_role_permits db p e ∧ e ∈ audit_logs db.
Proof.
  unfold selected.
  destruct (role_filter db p (audit_logs db)) as [scoped|] eqn:Hrole; [|done].
  intros [= <-] Hin%apply_filters_elem_of.
  by apply (role_filter_spec _ _ _ _ _ Hrole).
Qed.

(** Without caller filters, every permitted row is on some page. *)
Lemma unfiltered_listing_complete db p per_page e :
  1 ≤ per_page ≤ 100 → e ∈ audit_logs db → spec_role_permits db p e →
  ∃ page r, get_audit_logs db p (no_filters page per_page) = Ok r
            ∧ e ∈ logs r.
Proof.
  intros Hpp Hin Hperm.
  destruct (role_filter db p (audit_logs db)) as [scoped|] eqn:Hrole.
  - assert (Hsc : e ∈ scoped) by (by apply (role_filter_spec _ _ _ _ _ Hrole)).
    apply elem_of_newest_first_sort in Hsc.
    destruct (elem_of_some_page per_page _ _ (proj1 Hpp) Hsc)
      as (page & Hpage & Hon).
    exists page.
    unfold get_audit_logs, selected. simpl. rewrite Hrole.
    rewrite decide_True by (unfold valid_paging; lia).
    eexists. split; [reflexivity|exact Hon].
  - unfold role_filter, spec_role_permits in *.
    destruct (User.role p) as [[]|]; try destruct (clinic_of_admin db p);
      done.
Qed.

End audit_listing.

Lemma clinic_of_admin_None (db : Session) (p : User.t) :
  clinic_of_admin db p = None ↔
  ∀ c, c ∈ clinics db → Clinic.admin_user_id c ≠ Some (User.id p).
Proof.
  unfold clinic_of_admin. rewrite head_None. split.
  - intros Hnil c Hc Heq.
    assert (Hin : c ∈ filter
      (λ c, sql_eq (Clinic.admin_user_id c) (User.id p)) (clinics db))
      by (by apply list_elem_of_filter).
    rewrite Hnil in Hin. by apply elem_of_nil in Hin.
  - intros Hall. apply elem_of_nil_inv. intros c.
    rewrite list_elem_of_filter. intros [Heq Hc]. by apply (Hall c).
Qed.

Section audit_claims.
Import Audit.

(** ** C1 (as amended): role-scoped audit visibility.

    For every database and principal, the [/audit/logs] listing obeys the
    role of the principal:
    - an Admin is shown, without caller filters, every entry;
    - a ClinicAdmin or ClinicStaff whose clinic resolves is shown, without
      caller filters, every entry whose [clinic_id] is that clinic's id
      (an entry of clinic 7 for the administrator of clinic 7) and is never
      shown an entry with another [clinic_id] (the same entry for the
      administrator of clinic 9);
    - a Patient is only ever shown entries whose [user_id] is the
      patient's own id and whose [entity_type] is USER or DOCUMENT, and,
      without caller filters, is shown every such entry whatever its
      [clinic_id];
    - a principal whose role is none of the four members is answered 403. *)
Theorem audit_visibility_by_role (db : Session) (p : User.t) :
  (User.role p = Some UserRole.ADMIN →
   ∀ e, e ∈ audit_logs db →
        ∃ page r, get_audit_logs db p (no_filters page 20) = Ok r
                  ∧ e ∈ logs r)
  ∧ (∀ clinic,
     User.role p = Some UserRole.CLINIC_ADMIN
       ∨ User.role p = Some UserRole.CLINIC_STAFF →
     clinic_of_admin db p = Some clinic →
     (∀ e, e ∈ audit_logs db →
           AuditLog.clinic_id e = Some (Clinic.id clinic) →
           ∃ page r, get_audit_logs db p (no_filters page 20) = Ok r
                     ∧ e ∈ logs r)
     ∧ (∀ f r e, get_audit_logs db p f = Ok r → e ∈ logs r →
                 AuditLog.clinic_id e = Some (Clinic.id clinic)))
  ∧ (User.role p = Some UserRole.PATIENT →
     (∀ f r e, get_audit_logs db p f = Ok r → e ∈ logs r →
               AuditLog.user_id e = Some (User.id p)
               ∧ (AuditLog.entity_type e = AuditEntityType.USER
                  ∨ AuditLog.entity_type e = AuditEntityType.DOCUMENT))
     ∧ (∀ e, e ∈ audit_logs db →
             AuditLog.user_id e = Some (User.id p) →
             AuditLog.entity_type e = AuditEntityType.USER
               ∨ AuditLog.entity_type e = AuditEntityType.DOCUMENT →
             ∃ page r, get_audit_logs db p (no_filters page 20) = Ok r
                       ∧ e ∈ logs r))
  ∧ (User.role p = None →
     ∀ f, valid_paging (p_page f) (p_per_page f) →
          get_audit_logs db p f = HTTPException 403 "Access denied").
Proof.
  assert (Hlisted : ∀ f r e, get_audit_logs db p f = Ok r → e ∈ logs r →
                             spec_role_permits db p e).
  { intros f r e Hr He.
    destruct (get_audit_logs_elem_of _ _ _ _ _ Hr He) as (q & Hsel & Hq).
    by destruct (selected_elem_of _ _ _ _ _ Hsel Hq). }
  split; [|split; [|split]].
  - intros Hrole e He. apply unfiltered_listing_complete; [lia|done|].
    unfold spec_role_permits. by rewrite Hrole.
  - intros clinic Hrole Hclinic. split.
    + intros e He Hcid. apply unfiltered_listing_complete; [lia|done|].
      unfold spec_role_permits. rewrite Hclinic.
      by destruct Hrole as [-> | ->].
    + intros f r e Hr He. specialize (Hlisted f r e Hr He).
      unfold spec_role_permits in Hlisted. rewrite Hclinic in Hlisted.
      by destruct Hrole as [Hrole | Hrole]; rewrite Hrole in Hlisted.
  - intros Hrole. split.
    + intros f r e Hr He. specialize (Hlisted f r e Hr He).
      unfold spec_role_permits in Hlisted. by rewrite Hrole in Hlisted.
    + intros e He Hown Htype. apply unfiltered_listing_complete; [lia|done|].
      unfold spec_role_permits. by rewrite Hrole.
  - intros Hrole f Hvalid. unfold get_audit_logs, selected.
    rewrite decide_True by done. by rewrite role_filter_no_role.
Qed.

(** The scenario of the design document on the sample database: entry
    [e1] carries [clinic_id = 7]. *)
Lemma audit_visibility_by_role_witness :
  (∃ page r, get_audit_logs Scenario.db Scenario.admin7 (no_filters page 20)
               = Ok r ∧ Scenario.e1 ∈ logs r)
  ∧ (∀ f r, get_audit_logs Scenario.db Scenario.admin9 f = Ok r →
            Scenario.e1 ∉ logs r)
  ∧ (∀ f r, get_audit_logs Scenario.db Scenario.patient6 f = Ok r →
            Scenario.e1 ∉ logs r)
  ∧ get_audit_logs Scenario.db Scenario.stranger (no_filters 1 20)
    = HTTPException 403 "Access denied".
Proof.
  split; [|split; [|split]].
  - apply (proj1 (proj1 (proj2 (audit_visibility_by_role Scenario.db
      Scenario.admin7)) Scenario.clinic7 (or_introl eq_refl) eq_refl)).
    + apply list_elem_of_here.
    + reflexivity.
  - intros f r Hr He.
    pose proof (proj2 (proj1 (proj2 (audit_visibility_by_role Scenario.db
      Scenario.admin9)) Scenario.clinic9 (or_introl eq_refl) eq_refl)
      f r Scenario.e1 Hr He) as Hcid.
    discriminate Hcid.
  - intros f r Hr He.
    pose proof (proj1 (proj1 (proj2 (proj2 (audit_visibility_by_role
      Scenario.db Scenario.patient6))) eq_refl) f r Scenario.e1 Hr He)
      as [Hown _].
    discriminate Hown.
  - apply (proj2 (proj2 (proj2 (audit_visibility_by_role Scenario.db
      Scenario.stranger))) eq_refl).
    unfold valid_paging. simpl. lia.
Defined.

(** C1 as stated fails: an entry with [clinic_id = 7] whose actor is a
    patient and whose entity is a document is listed for that patient. *)
Lemma audit_patient_sees_own_clinic_entry :
  ¬ (∀ db p e f r,
       User.role p = Some UserRole.PATIENT →
       AuditLog.clinic_id e = Some 7 →
       get_audit_logs db p f = Ok r → e ∉ logs r).
Proof.
  intros Hclaim.
  apply (Hclaim Scenario.db Scenario.patient5 Scenario.e2 (no_filters 1 20)
           (mkResponse [Scenario.e2] 1 1 20));
    [reflexivity | reflexivity | reflexivity | apply list_elem_of_here].
Qed.

(** ** C5: caller filters only narrow the listing.

    Whatever filters, page and page size the caller sends, every entry of
    the answer is also on a page of the listing the same principal gets
    with no filter at all, and the filtered total does not exceed the
    unfiltered one. *)
Theorem filters_only_narrow (db : Session) (p : User.t) (f : Params)
  (r : AuditLogListResponse) :
  get_audit_logs db p f = Ok r →
  (∀ e, e ∈ logs r →
        ∃ page r0,
          get_audit_logs db p (no_filters page (p_per_page f)) = Ok r0
          ∧ e ∈ logs r0)
  ∧ (∀ page r0,
        get_audit_logs db p (no_filters page (p_per_page f)) = Ok r0 →
        total r ≤ total r0).
Proof.
  intros Hr. split.
  - intros e He.
    destruct (get_audit_logs_Ok _ _ _ _ Hr) as [(_ & Hpp) _].
    destruct (get_audit_logs_elem_of _ _ _ _ _ Hr He) as (q & Hsel & Hq).
    destruct (selected_elem_of _ _ _ _ _ Hsel Hq) as [Hperm Hin].
    by apply unfiltered_listing_complete.
  - intros page r0 Hr0.
    destruct (get_audit_logs_Ok _ _ _ _ Hr) as (_ & q & Hsel & Htot & _).
    destruct (get_audit_logs_Ok _ _ _ _ Hr0) as (_ & q0 & Hsel0 & Htot0 & _).
    unfold selected in Hsel, Hsel0.
    destruct (role_filter db p (audit_logs db)) as [scoped|]; [|done].
    injection Hsel as <-. injection Hsel0 as <-.
    rewrite Htot, Htot0, apply_filters_none.
    pose proof (apply_filters_length f scoped). lia.
Qed.

(** The administrator of clinic 7 asks for document entries only and gets
    [e2], which the unfiltered listing has too. *)
Lemma filters_only_narrow_witness :
  (∃ page r0,
     get_audit_logs Scenario.db Scenario.admin7 (no_filters page 20) = Ok r0
     ∧ Scenario.e2 ∈ logs r0)
  ∧ (∀ page r0,
       get_audit_logs Scenario.db Scenario.admin7 (no_filters page 20)
         = Ok r0 → 1 ≤ total r0).
Proof.
  pose proof (filters_only_narrow Scenario.db Scenario.admin7
    (mkParams 1 20 None (Some AuditEntityType.DOCUMENT) None None None None
       None None)
    (mkResponse [Scenario.e2] 1 1 20) eq_refl) as [Hin Htotal].
  split.
  - apply Hin. apply list_elem_of_here.
  - exact Htotal.
Defined.

(** ** C6: the audit listing fails closed when no clinic resolves.

    For a ClinicAdmin or ClinicStaff principal that administers no clinic
    ([clinic_of_admin] finds no row, see [clinic_of_admin_None]), every
    entry of every listing is one of the principal's own actions, and
    without filters the listing counts exactly those. *)
Theorem audit_fail_closed_without_clinic (db : Session) (p : User.t) :
  User.role p = Some UserRole.CLINIC_ADMIN
    ∨ User.role p = Some UserRole.CLINIC_STAFF →
  clinic_of_admin db p = None →
  (∀ f r e, get_audit_logs db p f = Ok r → e ∈ logs r →
            AuditLog.user_id e = Some (User.id p))
  ∧ (∀ page per_page r,
       get_audit_logs db p (no_filters page per_page) = Ok r →
       total r = Z.of_nat (length
         (filter (λ e, AuditLog.user_id e = Some (User.id p))
                 (audit_logs db)))).
Proof.
  intros Hrole Hnone. split.
  - intros f r e Hr He.
    destruct (get_audit_logs_elem_of _ _ _ _ _ Hr He) as (q & Hsel & Hq).
    destruct (selected_elem_of _ _ _ _ _ Hsel Hq) as [Hperm _].
    unfold spec_role_permits in Hperm. rewrite Hnone in Hperm.
    by destruct Hrole as [Hrole | Hrole]; rewrite Hrole in Hperm.
  - intros page per_page r Hr.
    destruct (get_audit_logs_Ok _ _ _ _ Hr) as (_ & q & Hsel & Htot & _).
    unfold selected, role_filter in Hsel. rewrite Hnone in Hsel.
    rewrite Htot.
    by destruct Hrole as [Hrole | Hrole]; rewrite Hrole in Hsel;
      injection Hsel as <-.
Qed.

(** The staff member of the sample database administers no clinic and
    sees one entry, their own upload, although it is recorded under
    clinic 9 next to nothing else of that clinic. *)
Lemma audit_fail_closed_without_clinic_witness :
  (∀ f r e, get_audit_logs Scenario.db Scenario.staff12 f = Ok r →
            e ∈ logs r → AuditLog.user_id e = Some 12)
  ∧ (∀ page per_page r,
       get_audit_logs Scenario.db Scenario.staff12 (no_filters page per_page)
         = Ok r → total r = 1).
Proof.
  exact (audit_fail_closed_without_clinic Scenario.db Scenario.staff12
           (or_intror eq_refl) eq_refl).
Defined.

End audit_claims.

(** ** The rate limiter *)

Section rate_limiter.
Import RateLimiter.
Implicit Types (buckets : gmap string RateBucket) (key : string).

(** A call for a key without bucket, or whose window has elapsed, opens
    a fresh window and is admitted. *)
Lemma is_allowed_fresh now key max_requests window_seconds buckets :
  buckets !! key = None
    ∨ (∃ bucket, buckets !! key = Some bucket
                 ∧ window_seconds ≤ now - window_start bucket) →
  is_allowed now key max_requests window_seconds buckets
  = (true, <[key := mkBucket now 1]> buckets).
Proof.
  unfold is_allowed. intros [-> | (bucket & -> & Helapsed)]; [done|].
  by rewrite decide_True.
Qed.

(** A call inside the window counts, and is admitted up to the limit. *)
Lemma is_allowed_within now key max_requests window_seconds buckets t0 c :
  buckets !! key = Some (mkBucket t0 c) →
  now - t0 < window_seconds →
  is_allowed now key max_requests window_seconds buckets
  = (bool_decide (c + 1 ≤ max_requests),
     <[key := mkBucket t0 (c + 1)]> buckets).
Proof.
  unfold is_allowed. intros -> Hin. simpl.
  rewrite decide_False by lia. done.
Qed.

(** Inside one window the [i]-th further call is admitted iff the count
    it reaches does not exceed the limit. *)
Lemma calls_within_window times key max_requests window_seconds :
  ∀ buckets t0 c,
    buckets !! key = Some (mkBucket t0 c) →
    Forall (λ now, now - t0 < window_seconds) times →
    calls times key max_requests window_seconds buckets
    = (imap (λ i _, bool_decide (c + 1 + Z.of_nat i ≤ max_requests)) times,
       <[key := mkBucket t0 (c + Z.of_nat (length times))]> buckets).
Proof.
  induction times as [|now times IH]; intros buckets t0 c Hb Hall.
  - simpl. rewrite Z.add_0_r. by rewrite insert_id.
  - apply Forall_cons in Hall as [Hnow Hall].
    cbn [calls length imap].
    rewrite (is_allowed_within _ _ _ _ _ t0 c) by done.
    rewrite (IH _ t0 (c + 1)); [|by rewrite lookup_insert_eq|done].
    rewrite insert_insert_eq. f_equal.
    + f_equal; [by rewrite Z.add_0_r|].
      apply imap_ext. intros i x _. unfold compose.
      by replace (c + 1 + Z.of_nat (S i)) with (c + 1 + 1 + Z.of_nat i)
        by lia.
    + do 2 f_equal. lia.
Qed.

End rate_limiter.

(** A request carries no header of a name exactly when the lookup of that
    name finds nothing. *)
Lemma headers_get_None (key : string) (request : Request.t) :
  Request.headers_get key request = None ↔
  ∀ name value, (name, value) ∈ Request.headers request → name ≠ lower key.
Proof.
  unfold Request.headers_get. rewrite fmap_None, head_None. split.
  - intros Hnil name value Hin Heq.
    assert (Hf : (name, value) ∈ filter (λ kv, kv.1 = lower key)
                                   (Request.headers request))
      by (by apply list_elem_of_filter).
    rewrite Hnil in Hf. by apply elem_of_nil in Hf.
  - intros Hall. apply elem_of_nil_inv. intros [name value].
    rewrite list_elem_of_filter. intros [Heq Hin]. by apply (Hall name value).
Qed.

(** [main.py] installs the CORS middleware and neither of the two classes
    of [middleware/secuirty.py]. *)
Remark main_installs_cors_only :
  (SecurityMiddlewareClass ∉ app_user_middleware)
  ∧ (CSRFMiddlewareClass ∉ app_user_middleware).
Proof. split; apply (bool_decide_unpack _); exact I. Qed.

Section middleware_claims.
Context {W : Type}.
Implicit Types (request : Request.t) (call_next : Handler W) (w : W).

(** ** C2 (as amended): CSRF enforcement.

    For a request whose method is not GET, HEAD or OPTIONS and whose path
    does not start with [/auth/]: when it has no [Authorization] header,
    or one of empty value, the answer is 403 whatever the rest of the
    application is, and the application state is untouched (no handler
    ran); when the header is there with a non-empty value, valid token or
    not, the request is handed to the rest of the application and its
    answer is returned as is. *)
Theorem csrf_requires_authorization request call_next w :
  Request.method request ∉ ["GET"; "HEAD"; "OPTIONS"] →
  startswith (Request.path request) "/auth/" = false →
  (Request.headers_get "Authorization" request = None
     ∨ Request.headers_get "Authorization" request = Some "" →
   CSRFMiddleware.dispatch request call_next w
   = (JSONResponse 403 "CSRF protection: Authorization header required", w))
  ∧ (∀ value,
       Request.headers_get "Authorization" request = Some value →
       value ≠ "" →
       CSRFMiddleware.dispatch request call_next w = call_next request w).
Proof.
  intros Hmethod Hpath. unfold CSRFMiddleware.dispatch.
  rewrite bool_decide_eq_false_2 by done. rewrite Hpath. split.
  - by intros [-> | ->].
  - intros value -> Hvalue. by destruct value.
Qed.

(** ** C4 (as amended): security headers once the rate limit passes.

    Whenever the rate limiter admits the request, the response that
    [SecurityMiddleware.dispatch] returns carries the five defensive
    headers with their fixed values, whatever response the rest of the
    application produced (any route, any status), and keeps that
    response's status and content. *)
Theorem security_headers_when_rate_limit_passes
  (get_client_ip : Request.t → string) (now : Z) request call_next
  (rate_limiter : gmap string RateLimiter.RateBucket) w :
  (RateLimiter.is_allowed now (get_client_ip request)
     (SecurityMiddleware.limits request).1
     (SecurityMiddleware.limits request).2 rate_limiter).1 = true →
  let response :=
    (SecurityMiddleware.dispatch get_client_ip now request call_next
       (rate_limiter, w)).1 in
  carries_security_headers response
  ∧ Response.status_code response
    = Response.status_code (call_next request w).1
  ∧ Response.content response = Response.content (call_next request w).1.
Proof.
  intros Hallowed. unfold SecurityMiddleware.dispatch.
  destruct (SecurityMiddleware.limits request) as [max_requests window].
  simpl in Hallowed.
  destruct (RateLimiter.is_allowed _ _ _ _ _) as [allowed rl'].
  simpl in Hallowed. subst allowed. simpl.
  destruct (call_next request w) as [response w']. simpl.
  split; [|done].
  unfold carries_security_headers, spec_security_headers,
    SecurityMiddleware.add_security_headers, Response.header,
    Response.set_header.
  cbn [Response.headers fst snd].
  repeat match goal with
         | |- context [lower ?s] =>
             let v := eval vm_compute in (lower s) in change (lower s) with v
         end.
  repeat constructor;
    repeat (rewrite lookup_insert_ne by done); by rewrite lookup_insert_eq.
Qed.

End middleware_claims.

Lemma csrf_requires_authorization_witness :
  CSRFMiddleware.dispatch HttpScenario.bare_delete HttpScenario.guarded_app
    0%nat
  = (JSONResponse 403 "CSRF protection: Authorization header required",
     0%nat)
  ∧ CSRFMiddleware.dispatch HttpScenario.forged_delete
      HttpScenario.guarded_app 0%nat
    = (JSONResponse 401 "Could not validate credentials", 1%nat).
Proof.
  split.
  - refine (proj1 (csrf_requires_authorization HttpScenario.bare_delete
      HttpScenario.guarded_app 0%nat _ eq_refl) _).
    + apply (bool_decide_unpack _). exact I.
    + left. reflexivity.
  - refine (eq_trans (proj2 (csrf_requires_authorization
      HttpScenario.forged_delete HttpScenario.guarded_app 0%nat _ eq_refl)
      "Bearer not-a-token" eq_refl _) eq_refl).
    + apply (bool_decide_unpack _). exact I.
    + discriminate.
Defined.

(** C2 as stated fails: an [Authorization] header that is present but
    empty does not pass the CSRF stage. *)
Lemma csrf_rejects_empty_authorization_header :
  ¬ (∀ (request : Request.t) (call_next : Handler nat) (w : nat) value,
       Request.method request ∉ ["GET"; "HEAD"; "OPTIONS"] →
       startswith (Request.path request) "/auth/" = false →
       Request.headers_get "Authorization" request = Some value →
       CSRFMiddleware.dispatch request call_next w = call_next request w).
Proof.
  intros Hclaim.
  assert (Hmethod : Request.method HttpScenario.empty_auth_delete
                    ∉ ["GET"; "HEAD"; "OPTIONS"])
    by (apply (bool_decide_unpack _); exact I).
  specialize (Hclaim HttpScenario.empty_auth_delete HttpScenario.guarded_app
                0%nat "" Hmethod eq_refl eq_refl).
  vm_compute in Hclaim. discriminate Hclaim.
Qed.

(** A forged bearer string passes the limiter and is refused downstream
    with 401: the refusal carries the five headers. *)
Lemma security_headers_when_rate_limit_passes_witness :
  let response :=
    (SecurityMiddleware.dispatch HttpScenario.get_client_ip 0
       HttpScenario.forged_delete HttpScenario.guarded_app (∅, 0%nat)).1 in
  carries_security_headers response
  ∧ Response.status_code response = 401
  ∧ Response.content response = "Could not validate credentials".
Proof.
  exact (security_headers_when_rate_limit_passes HttpScenario.get_client_ip 0
           HttpScenario.forged_delete HttpScenario.guarded_app ∅ 0%nat
           eq_refl).
Defined.

(** C4 as stated fails: after five login attempts in the hour the sixth is
    answered 429 by the middleware itself, and that response carries none
    of the five headers. *)
Lemma rate_limited_response_lacks_security_headers :
  let rate_limiter :=
    (RateLimiter.calls [0; 10; 20; 30; 40] "10.0.0.1" 5 3600 ∅).2 in
  let response :=
    (SecurityMiddleware.dispatch HttpScenario.get_client_ip 50
       HttpScenario.login_request HttpScenario.guarded_app
       (rate_limiter, 0%nat)).1 in
  Response.status_code response = 429
  ∧ ¬ carries_security_headers response
  ∧ Forall (λ kv, Response.header kv.1 response = None)
           spec_security_headers.
Proof.
  split; [reflexivity|]. split.
  - apply (proj1 (bool_decide_eq_false _)). vm_compute. reflexivity.
  - apply (bool_decide_unpack _). vm_compute. exact I.
Qed.

(** ** C3: fixed-window rate limiting, five requests an hour.

    For any client key that has no live bucket at [t1] (none at all, or one
    whose window has elapsed), six calls of [is_allowed] with
    [max_requests = 5] and [window_seconds = 3600] at [t1] and at five
    instants of the window opened at [t1] are answered true five times and
    then false; a seventh call at an instant [t7] with
    [t7 - t1 >= 3600] is answered true and leaves the key with a fresh
    bucket of count 1 started at [t7].  A request the limiter rejects is
    answered 429 by the middleware without reaching the application. *)
Theorem fixed_window_rate_limit (key : string)
  (buckets : gmap string RateLimiter.RateBucket) (t1 t2 t3 t4 t5 t6 t7 : Z) :
  buckets !! key = None
    ∨ (∃ bucket, buckets !! key = Some bucket
                 ∧ 3600 ≤ t1 - RateLimiter.window_start bucket) →
  t2 - t1 < 3600 ∧ t3 - t1 < 3600 ∧ t4 - t1 < 3600 ∧ t5 - t1 < 3600
    ∧ t6 - t1 < 3600 →
  3600 ≤ t7 - t1 →
  (∃ buckets6 buckets7,
     RateLimiter.calls [t1; t2; t3; t4; t5; t6] key 5 3600 buckets
     = ([true; true; true; true; true; false], buckets6)
     ∧ RateLimiter.is_allowed t7 key 5 3600 buckets6 = (true, buckets7)
     ∧ buckets7 !! key = Some (RateLimiter.mkBucket t7 1))
  ∧ (∀ (W : Type) get_client_ip now request (call_next : Handler W)
       rate_limiter w,
       (RateLimiter.is_allowed now (get_client_ip request)
          (SecurityMiddleware.limits request).1
          (SecurityMiddleware.limits request).2 rate_limiter).1 = false →
       let out :=
         SecurityMiddleware.dispatch get_client_ip now request call_next
           (rate_limiter, w) in
       out.1 = JSONResponse 429 "Rate limit exceeded" ∧ out.2.2 = w).
Proof.
  intros Hfresh (H2 & H3 & H4 & H5 & H6) H7. split.
  - eexists _, _.
    change (RateLimiter.calls [t1; t2; t3; t4; t5; t6] key 5 3600 buckets)
      with (let '(allowed, b) := RateLimiter.is_allowed t1 key 5 3600 buckets
            in let '(rest, b) :=
                 RateLimiter.calls [t2; t3; t4; t5; t6] key 5 3600 b
               in (allowed :: rest, b)).
    rewrite (is_allowed_fresh _ _ _ _ _ Hfresh).
    rewrite (calls_within_window _ _ _ _ _ t1 1);
      [|by rewrite lookup_insert_eq|by repeat constructor].
    rewrite insert_insert_eq. split; [reflexivity|].
    rewrite is_allowed_fresh.
    + split; [reflexivity|]. by rewrite lookup_insert_eq.
    + right. eexists. rewrite lookup_insert_eq. split; [reflexivity|].
      simpl. lia.
  - intros W get_client_ip now request call_next rate_limiter w.
    unfold SecurityMiddleware.dispatch.
    destruct (SecurityMiddleware.limits request) as [max_requests window].
    simpl.
    destruct (RateLimiter.is_allowed _ _ _ _ _) as [allowed rl'].
    simpl. by intros ->.
Qed.

(** From an empty limiter: calls at 0, 10, ..., 50 seconds and one an hour
    after the first; and the sixth login attempt as the middleware answers
    it. *)
Lemma fixed_window_rate_limit_witness :
  (∃ buckets6 buckets7,
     RateLimiter.calls [0; 10; 20; 30; 40; 50] "10.0.0.1" 5 3600 ∅
     = ([true; true; true; true; true; false], buckets6)
     ∧ RateLimiter.is_allowed 3600 "10.0.0.1" 5 3600 buckets6
       = (true, buckets7)
     ∧ buckets7 !! "10.0.0.1" = Some (RateLimiter.mkBucket 3600 1))
  ∧ (let rate_limiter :=
       (RateLimiter.calls [0; 10; 20; 30; 40] "10.0.0.1" 5 3600 ∅).2 in
     let out :=
       SecurityMiddleware.dispatch HttpScenario.get_client_ip 50
         HttpScenario.login_request HttpScenario.guarded_app
         (rate_limiter, 0%nat) in
     out.1 = JSONResponse 429 "Rate limit exceeded" ∧ out.2.2 = 0%nat).
Proof.
  destruct (fixed_window_rate_limit "10.0.0.1" ∅ 0 10 20 30 40 50 3600)
    as [Hcalls Hreject].
  - left. reflexivity.
  - lia.
  - lia.
  - split; [exact Hcalls|].
    apply (Hreject nat HttpScenario.get_client_ip 50
             HttpScenario.login_request HttpScenario.guarded_app).
    vm_compute. reflexivity.
Defined.

(** ** Tokens and settings *)

Section tokens.
Import TokenService.
Context (S : Scheme).
Implicit Types (key algorithm salt subject : string) (now ttl : Z).

(** Verifying a freshly issued token under the issuing key depends on the
    clock only. *)
Lemma verify_issued key algorithm now salt subject ttl (t : Z) :
  verify_token S key algorithm t
    (create_access_token S key algorithm now salt subject ttl)
  = if decide (now + ttl < t) then inr TokenExpired else inl subject.
Proof.
  unfold verify_token, create_access_token.
  rewrite decode_encode. by rewrite decide_True.
Qed.

Lemma login_Ok verify_password settings now salt db username password
  (tok : Auth.Token S) :
  Auth.login S verify_password settings now salt db username password
    = Ok tok →
  Auth.access_token tok
    = create_access_token S (Settings.secret_key settings)
        (Settings.algorithm settings) now salt (User.email (Auth.user tok))
        (60 * Settings.access_token_expire_minutes settings)
  ∧ Auth.expires_in tok
    = Settings.access_token_expire_minutes settings * 60.
Proof.
  unfold Auth.login.
  destruct (head _) as [user|]; [|done].
  destruct (verify_password _ _); [|done].
  destruct (User.is_active user); [|done].
  simpl. by intros [= <-].
Qed.

End tokens.

Lemma settings_init_inl parse_int src settings :
  Settings.init parse_int src = inl settings →
  Settings.required_str src "database_url"
    = inl (Settings.database_url settings)
  ∧ Settings.required_str src "secret_key"
    = inl (Settings.secret_key settings)
  ∧ Settings.default_int parse_int src "access_token_expire_minutes" 30
    = inl (Settings.access_token_expire_minutes settings)
  ∧ Settings.extra_inputs src = [].
Proof.
  unfold Settings.init.
  destruct (Settings.required_str src "database_url") as [url|];
    destruct (Settings.required_str src "secret_key") as [key|];
    destruct (Settings.default_int _ _ _ _) as [minutes|];
    destruct (Settings.extra_inputs src); try done.
  by intros [= <-].
Qed.

(** ** C8: token round trip and expiry.

    For every scheme, key, subject and [ttl > 0]: a token verified at the
    instant it was issued yields its subject; verified [ttl + 1] seconds
    after issue it fails with [TokenExpired].  Settings built from sources
    that do not name [access_token_expire_minutes] carry 30 minutes, and a
    token issued by [login] under given settings announces and has an
    expiry of that many minutes. *)
Theorem token_round_trip_and_expiry (S : TokenService.Scheme)
  (key algorithm salt subject : string) (now ttl : Z) :
  0 < ttl →
  TokenService.verify_token S key algorithm now
    (TokenService.create_access_token S key algorithm now salt subject ttl)
  = inl subject
  ∧ TokenService.verify_token S key algorithm (now + ttl + 1)
      (TokenService.create_access_token S key algorithm now salt subject ttl)
    = inr TokenService.TokenExpired
  ∧ (∀ parse_int src settings,
       Settings.field_value src "access_token_expire_minutes" = None →
       Settings.init parse_int src = inl settings →
       Settings.access_token_expire_minutes settings = 30)
  ∧ (∀ verify_password settings db username password tok,
       Auth.login S verify_password settings now salt db username password
         = Ok tok →
       let minutes := Settings.access_token_expire_minutes settings in
       Auth.expires_in tok = minutes * 60
       ∧ ∀ t, TokenService.verify_token S (Settings.secret_key settings)
                (Settings.algorithm settings) t (Auth.access_token tok)
              = if decide (now + 60 * minutes < t)
                then inr TokenService.TokenExpired
                else inl (User.email (Auth.user tok))).
Proof.
  intros Httl. split; [|split; [|split]].
  - rewrite verify_issued. by rewrite decide_False by lia.
  - rewrite verify_issued. by rewrite decide_True by lia.
  - intros parse_int src settings Hnone Hinit.
    apply settings_init_inl in Hinit as (_ & _ & Hminutes & _).
    unfold Settings.default_int in Hminutes. rewrite Hnone in Hminutes.
    by injection Hminutes.
  - intros verify_password settings db username password tok Hlogin.
    apply login_Ok in Hlogin as [Htoken Hexpires]. split; [done|].
    intros t. rewrite Htoken. apply verify_issued.
Qed.

(** A token for patient 5 issued at second 1000 for 30 minutes. *)
Lemma token_round_trip_and_expiry_witness :
  let token :=
    TokenService.create_access_token ConfigScenario.plain "s3cr3t" "HS256"
      1000 "a1" "p5@mail.test" 1800 in
  TokenService.verify_token ConfigScenario.plain "s3cr3t" "HS256" 1000 token
  = inl "p5@mail.test"
  ∧ TokenService.verify_token ConfigScenario.plain "s3cr3t" "HS256" 2801
      token
    = inr TokenService.TokenExpired.
Proof.
  pose proof (token_round_trip_and_expiry ConfigScenario.plain "s3cr3t"
    "HS256" "a1" "p5@mail.test" 1000 1800) as H.
  destruct H as (Hfresh & Hexpired & _); [lia|].
  split; [exact Hfresh | exact Hexpired].
Defined.

(** ** C10 (as amended): the settings need the signing key.

    When neither the environment nor the [.env] file names [secret_key],
    [Settings()] raises a validation error that reports the field missing,
    and importing the application fails with it.  When the sources name
    [database_url] and [secret_key], give [access_token_expire_minutes]
    (if at all) as an integer and the [.env] file names nothing but
    fields, [Settings()] succeeds, the application is imported, the
    settings carry that key, and [login] issues tokens signed with it. *)
Theorem settings_require_signing_key (parse_int : string → option Z)
  (src : Settings.Sources) :
  (Settings.environ src !! "secret_key" = None →
   Settings.env_file src !! "secret_key" = None →
   ∃ errors,
     Settings.init parse_int src = inr errors
     ∧ Settings.missing "secret_key" ∈ errors
     ∧ import_main parse_int src = Crashed errors)
  ∧ (∀ url key minutes,
       Settings.field_value src "database_url" = Some url →
       Settings.field_value src "secret_key" = Some key →
       Settings.default_int parse_int src "access_token_expire_minutes" 30
         = inl minutes →
       Settings.extra_inputs src = [] →
       ∃ settings,
         Settings.init parse_int src = inl settings
         ∧ import_main parse_int src = Serving settings
         ∧ Settings.secret_key settings = key
         ∧ ∀ S verify_password now salt db username password tok,
             Auth.login S verify_password settings now salt db username
               password = Ok tok →
             Auth.access_token tok
             = TokenService.create_access_token S key
                 (Settings.algorithm settings) now salt
                 (User.email (Auth.user tok)) (60 * minutes)).
Proof.
  split.
  - intros Henv Hfile. unfold import_main, Settings.init.
    assert (Hkey : Settings.required_str src "secret_key"
                   = inr [Settings.missing "secret_key"]).
    { unfold Settings.required_str, Settings.field_value.
      by rewrite Henv, Hfile. }
    rewrite Hkey.
    destruct (Settings.required_str src "database_url");
      destruct (Settings.default_int _ _ _ _);
      destruct (Settings.extra_inputs src);
      (eexists; split; [reflexivity|]; split; [|reflexivity]);
      simpl; rewrite ?elem_of_app, ?elem_of_cons; tauto.
  - intros url key minutes Hurl Hkey Hminutes Hextra.
    unfold import_main, Settings.init, Settings.required_str.
    rewrite Hurl, Hkey, Hminutes, Hextra.
    eexists. split; [reflexivity|]. split; [reflexivity|].
    split; [reflexivity|].
    intros S verify_password now salt db username password tok Hlogin.
    by apply login_Ok in Hlogin as [-> _].
Qed.

Lemma settings_require_signing_key_witness :
  (∃ errors,
     Settings.init ConfigScenario.parse_decimal ConfigScenario.url_only
       = inr errors
     ∧ Settings.missing "secret_key" ∈ errors
     ∧ import_main ConfigScenario.parse_decimal ConfigScenario.url_only
       = Crashed errors)
  ∧ (∃ settings,
       import_main ConfigScenario.parse_decimal ConfigScenario.complete
         = Serving settings
       ∧ Settings.secret_key settings = "s3cr3t").
Proof.
  split.
  - apply (proj1 (settings_require_signing_key ConfigScenario.parse_decimal
                    ConfigScenario.url_only)); reflexivity.
  - destruct (proj2 (settings_require_signing_key
      ConfigScenario.parse_decimal ConfigScenario.complete)
      "sqlite:///./medikeep.db" "s3cr3t" 30 eq_refl eq_refl eq_refl eq_refl)
      as (settings & _ & Hserving & Hkey & _).
    exists settings. split; [exact Hserving | exact Hkey].
Defined.

(** C10 as stated fails: with the signing key present and the database
    URL absent, [Settings()] raises all the same. *)
Lemma settings_fail_without_database_url :
  ¬ (∀ parse_int src key,
       Settings.field_value src "secret_key" = Some key →
       ∃ settings, Settings.init parse_int src = inl settings).
Proof.
  intros Hclaim.
  destruct (Hclaim ConfigScenario.parse_decimal ConfigScenario.key_only
              "s3cr3t" eq_refl) as [settings Hinit].
  vm_compute in Hinit. discriminate Hinit.
Qed.

(** ** The document routes *)

Section document_claims.
Import Documents.
Implicit Types (st : State) (p : User.t).

Lemma upload_clinic_id_fallback (db : Session) p :
  User.role p = Some UserRole.CLINIC_ADMIN
    ∨ User.role p = Some UserRole.CLINIC_STAFF →
  clinic_of_admin db p = None →
  upload_clinic_id db p = Some 1.
Proof.
  unfold upload_clinic_id. intros Hrole ->.
  by destruct Hrole as [-> | ->].
Qed.

Lemma check_permissions_without_clinic (db : Session) p document :
  User.role p = Some UserRole.CLINIC_ADMIN
    ∨ User.role p = Some UserRole.CLINIC_STAFF →
  clinic_of_admin db p = None →
  check_permissions db p document = None.
Proof.
  unfold check_permissions. intros Hrole ->.
  by destruct Hrole as [-> | ->].
Qed.

(** ** Building a document response *)

(** [file_hash] is required by the schema and is no attribute of the
    model: [from_orm] raises for every document. *)
Lemma from_orm_raises (document : Document.t) :
  from_orm document = HTTPException 500 "Internal Server Error".
Proof.
  unfold from_orm. rewrite decide_False; [done|].
  intros Hsub.
  assert (Hin : "file_hash" ∈ Document_attributes).
  { apply Hsub. unfold DocumentResponse_required.
    do 7 apply list_elem_of_further. apply list_elem_of_here. }
  revert Hin. apply (bool_decide_unpack _). vm_compute. exact I.
Qed.



(** [has_next] and [has_previous] are required and not passed: the
    constructor raises for every listing, the empty one included. *)
Lemma new_DocumentListResponse_raises (documents : list Document.t)
  (total page per_page : Z) :
  new_DocumentListResponse documents total page per_page
  = HTTPException 500 "Internal Server Error".
Proof.
  unfold new_DocumentListResponse. rewrite decide_False; [done|].
  intros Hsub.
  assert (Hin : "has_next" ∈ get_documents_keywords).
  { apply Hsub. unfold DocumentListResponse_required.
    do 4 apply list_elem_of_further. apply list_elem_of_here. }
  revert Hin. apply (bool_decide_unpack _). vm_compute. exact I.
Qed.


(** A listing that passed the paging and role checks fails while its
    response is built. *)
Lemma get_documents_raises (db : Session) p (page per_page : Z)
  (patient_id : option Z) (status : option DocumentStatus.t)
  (document_type : option DocumentType.t) (query : list Document.t) :
  Audit.valid_paging page per_page →
  role_query db p (documents db) = Ok query →
  get_documents db p page per_page patient_id status document_type
  = HTTPException 500 "Internal Server Error".
Proof.
  intros Hvalid Hquery. unfold get_documents.
  rewrite decide_True by done. rewrite Hquery.
  destruct (offset_limit _ _ _) as [|doc rest]; cbn [from_orm_all].
  - apply new_DocumentListResponse_raises.
  - by rewrite from_orm_raises.
Qed.

(** ** C7 (as amended): the upload falls back to clinic 1.

    For an upload by a ClinicAdmin or ClinicStaff principal that
    administers no clinic, once the file is stored: the request is never
    refused for want of a clinic, it goes on with [clinic_id = 1].  If it
    names no patient, or a patient of clinic 1, a document attributed to
    clinic 1 is added to the table; if it names a patient that is not of
    clinic 1 it is answered 404 and no document is created.  What the
    route answers after the row is committed is no part of the
    statement. *)
Theorem upload_falls_back_to_clinic_1 st p (file : UploadFile)
  (file_path unique_filename : string) (file_size : Z)
  (patient_id : option Z) (document_type : option DocumentType.t)
  (notes : option string) :
  User.role p = Some UserRole.CLINIC_ADMIN
    ∨ User.role p = Some UserRole.CLINIC_STAFF →
  clinic_of_admin (db st) p = None →
  let out :=
    upload_document st p file (saved file_path unique_filename file_size)
      patient_id document_type notes in
  let patient_of_clinic_1 (pid : Z) : Prop :=
    ∃ patient, patient ∈ patients (db st) ∧ Patient.id patient = pid
               ∧ Patient.clinic_id patient = Some 1 in
  out.1 ≠ HTTPException 400 "Cannot determine clinic association"
  ∧ (truthy_int patient_id = None
       ∨ (∃ pid, truthy_int patient_id = Some pid ∧ patient_of_clinic_1 pid) →
     ∃ document,
       documents (db out.2) = documents (db st) ++ [document]
       ∧ Document.clinic_id document = Some 1
       ∧ Document.patient_id document = patient_id)
  ∧ (∀ pid, truthy_int patient_id = Some pid → ¬ patient_of_clinic_1 pid →
       out.1 = HTTPException 404 "Patient not found in your clinic"
       ∧ db out.2 = db st).
Proof.
  intros Hrole Hnone out patient_of_clinic_1. subst out.
  unfold upload_document. cbn [db files].
  rewrite (upload_clinic_id_fallback _ _ Hrole Hnone). cbn [truthy_int].
  rewrite decide_False by done. rewrite from_orm_raises.
  destruct (truthy_int patient_id) as [pid|] eqn:Hpid.
  - destruct (head (filter _ (patients (db st)))) as [patient|] eqn:Hhead.
    + assert (Hin : patient_of_clinic_1 pid).
      { apply head_Some in Hhead as [rest Hrest].
        assert (Hp : patient ∈ filter
          (λ q, Patient.id q = pid ∧ sql_eq (Patient.clinic_id q) 1)
          (patients (db st))) by (rewrite Hrest; apply list_elem_of_here).
        apply list_elem_of_filter in Hp as [[Hid Hclinic] Hp].
        by exists patient. }
      split; [done|]. split.
      * intros _. eexists. by repeat split.
      * intros pid' [= <-] Hnot. by destruct Hnot.
    + assert (Hnot : ¬ patient_of_clinic_1 pid).
      { intros (patient & Hp & Hid & Hclinic).
        assert (Hf : patient ∈ filter
          (λ q, Patient.id q = pid ∧ sql_eq (Patient.clinic_id q) 1)
          (patients (db st))) by (by apply list_elem_of_filter).
        apply head_None in Hhead. rewrite Hhead in Hf.
        by apply elem_of_nil in Hf. }
      split; [done|]. split.
      * intros [Hfalse | (pid' & [= <-] & Hin)]; [done | by destruct Hnot].
      * intros pid' _ _. cbn [fst snd db files]. by split.
  - split; [done|]. split.
    + intros _. eexists. by repeat split.
    + intros pid' Hfalse. done.
Qed.

(** The staff member of the sample database, who administers no clinic,
    uploads a file without naming a patient: a document of clinic 1 is
    added to the table. *)
Lemma upload_falls_back_to_clinic_1_witness :
  let out :=
    upload_document (mkState Scenario.db ∅) Scenario.staff12
      (mkUploadFile (Some "scan.pdf") (Some "application/pdf"))
      (saved "uploads/documents/c.pdf" "c.pdf" 2048) None None None in
  ∃ document,
    documents (db out.2) = documents Scenario.db ++ [document]
    ∧ Document.clinic_id document = Some 1
    ∧ Document.patient_id document = None.
Proof.
  apply (proj1 (proj2 (upload_falls_back_to_clinic_1
    (mkState Scenario.db ∅) Scenario.staff12
    (mkUploadFile (Some "scan.pdf") (Some "application/pdf"))
    "uploads/documents/c.pdf" "c.pdf" 2048 None None None
    (or_intror eq_refl) eq_refl))).
  left. reflexivity.
Defined.

(** C7 as stated fails: the same principal names patient 50, who is of
    clinic 7; the upload fails (it is answered 404) and no document is
    created, of clinic 1 or of any other. *)
Lemma upload_fails_for_patient_outside_clinic_1 :
  ¬ (∀ st p file file_path unique_filename file_size patient_id
       document_type notes,
       User.role p = Some UserRole.CLINIC_ADMIN
         ∨ User.role p = Some UserRole.CLINIC_STAFF →
       clinic_of_admin (db st) p = None →
       let out :=
         upload_document st p file
           (saved file_path unique_filename file_size) patient_id
           document_type notes in
       ∃ document,
         documents (db out.2) = documents (db st) ++ [document]
         ∧ Document.clinic_id document = Some 1).
Proof.
  intros Hclaim.
  destruct (Hclaim (mkState Scenario.db ∅) Scenario.staff12
              (mkUploadFile (Some "scan.pdf") (Some "application/pdf"))
              "uploads/documents/c.pdf" "c.pdf" 2048 (Some 50) None None
              (or_intror eq_refl) eq_refl) as (document & Hcreated & _).
  apply (f_equal length) in Hcreated. rewrite length_app in Hcreated.
  vm_compute in Hcreated. discriminate Hcreated.
Qed.

(** ** C9: document reads fail open when no clinic resolves.

    For a ClinicAdmin or ClinicStaff principal that administers no
    clinic, the clinic check is skipped: the permission check passes for
    every document, whatever its [clinic_id]; [download_document]
    returns the file of any document that exists whenever the file is on
    the server and is never answered 403; the listing query is the whole
    table.  [get_document] and [get_documents] then fail while they
    build their response and are answered 500 where the claim has them
    return the document and the list. *)
Theorem documents_fail_open_without_clinic st p :
  User.role p = Some UserRole.CLINIC_ADMIN
    ∨ User.role p = Some UserRole.CLINIC_STAFF →
  clinic_of_admin (db st) p = None →
  (∀ document_id document,
     find_document (db st) document_id = Some document →
     check_permissions (db st) p document = None
     ∧ download_document st p document_id
       = (if decide (Document.file_path document ∈ files st)
          then Ok (mkFileResponse (Document.file_path document)
                     (Document.original_filename document)
                     (Document.mime_type document))
          else HTTPException 404 "File not found on server")
     ∧ get_document (db st) p document_id
       = HTTPException 500 "Internal Server Error")
  ∧ role_query (db st) p (documents (db st)) = Ok (documents (db st))
  ∧ (∀ page per_page,
       Audit.valid_paging page per_page →
       get_documents (db st) p page per_page None None None
       = HTTPException 500 "Internal Server Error").
Proof.
  intros Hrole Hnone.
  assert (Hquery : role_query (db st) p (documents (db st))
                   = Ok (documents (db st))).
  { unfold role_query. rewrite Hnone. by destruct Hrole as [-> | ->]. }
  split; [|split].
  - intros document_id document Hfind.
    pose proof (check_permissions_without_clinic _ _ document Hrole Hnone)
      as Hperm.
    split; [done|]. split.
    + unfold download_document. by rewrite Hfind, Hperm.
    + unfold get_document. rewrite Hfind, Hperm. apply from_orm_raises.
  - done.
  - intros page per_page Hvalid. by eapply get_documents_raises.
Qed.

(** The staff member of the sample database downloads the file of the
    document of clinic 7; reading that document and listing the
    documents are answered 500. *)
Lemma documents_fail_open_without_clinic_witness :
  let st := mkState Scenario.db {[ "uploads/documents/a.pdf" ]} in
  download_document st Scenario.staff12 70
  = Ok (mkFileResponse "uploads/documents/a.pdf" "scan.pdf"
          "application/pdf")
  ∧ get_document Scenario.db Scenario.staff12 70
    = HTTPException 500 "Internal Server Error"
  ∧ get_documents Scenario.db Scenario.staff12 1 20 None None None
    = HTTPException 500 "Internal Server Error".
Proof.
  pose proof (documents_fail_open_without_clinic
    (mkState Scenario.db {[ "uploads/documents/a.pdf" ]}) Scenario.staff12
    (or_intror eq_refl) eq_refl) as (Hread & _ & Hlist).
  destruct (Hread 70 Scenario.doc70 eq_refl) as (_ & Hdown70 & Hget70).
  split; [exact Hdown70|]. split; [exact Hget70|].
  apply (Hlist 1 20). unfold Audit.valid_paging. lia.
Defined.

End document_claims.

(** * Further properties of the routes *)

(** ** Pages *)

Section pages.
Context {A : Type}.
Implicit Types (l : list A).

Lemma length_offset_limit offset per_page l :
  (length (offset_limit offset per_page l) ≤ Z.to_nat per_page)%nat.
Proof. unfold offset_limit. rewrite length_take. lia. Qed.

Lemma offset_limit_nil_iff offset per_page l :
  1 ≤ per_page → 0 ≤ offset →
  offset_limit offset per_page l = [] ↔ Z.of_nat (length l) ≤ offset.
Proof.
  intros Hpp Hoff. unfold offset_limit. split.
  - intros [Hzero | Hnil]%take_nil_inv; [lia|].
    apply drop_nil_inv in Hnil. lia.
  - intros Hlen. rewrite drop_ge by lia. apply take_nil.
Qed.

Lemma StronglySorted_offset_limit (R : relation A) offset per_page l :
  StronglySorted R l → StronglySorted R (offset_limit offset per_page l).
Proof.
  unfold offset_limit. intros Hl.
  rewrite <- (take_drop (Z.to_nat offset) l) in Hl.
  apply StronglySorted_app_1_r in Hl.
  rewrite <- (take_drop (Z.to_nat per_page) (drop (Z.to_nat offset) l)) in Hl.
  by apply StronglySorted_app_1_l in Hl.
Qed.

(** Consecutive pages, read in order, are an initial segment. *)
Lemma join_pages (m : nat) l (n : nat) :
  mjoin ((λ k : nat, take m (drop (k * m) l)) <$> seq 0 n)
  = take (n * m) l.
Proof.
  induction n as [|n IH]; [done|].
  rewrite seq_S, fmap_app, join_app, IH. simpl.
  rewrite app_nil_r. rewrite take_take_drop. f_equal. lia.
Qed.

End pages.

#[local] Instance newest_first_transitive : Transitive Audit.newest_first.
Proof. unfold Audit.newest_first. intros a b c Hab Hbc. lia. Qed.

#[local] Instance newest_first_total : Total Audit.newest_first.
Proof. unfold Audit.newest_first. intros a b. lia. Qed.

Section audit_pages.
Import Audit.
Implicit Types (db : Session) (p : User.t) (f : Params) (e : AuditLog.t).

Lemma selected_with_page db p f page :
  selected db p (with_page f page) = selected db p f.
Proof. reflexivity. Qed.

(** An entry of the caller's own is on a page of the caller's activity. *)
Lemma own_entry_on_my_activity db p e :
  e ∈ audit_logs db → AuditLog.user_id e = Some (User.id p) →
  ∃ page r, Activity.get_my_activity db p page 20 = Ok r ∧ e ∈ logs r.
Proof.
  intros Hin Hown.
  assert (Hsel : e ∈ merge_sort newest_first
    (filter (λ e, sql_eq (AuditLog.user_id e) (User.id p)) (audit_logs db))).
  { apply elem_of_newest_first_sort. by apply list_elem_of_filter. }
  destruct (elem_of_some_page 20 _ _ ltac:(lia) Hsel) as (page & Hp & Hon).
  exists page. unfold Activity.get_my_activity.
  rewrite decide_True by (unfold Activity.valid_paging; lia).
  eexists. split; [reflexivity|exact Hon].
Qed.

(** X1.  [/audit/my-activity] lists the caller's own entries and nothing
    else, whatever the role of the caller: every entry of an answer is a
    row of the table whose [user_id] is the caller's id, and every such
    row is on one of the pages. *)
Theorem my_activity_own_entries db p :
  (∀ page per_page r e,
     Activity.get_my_activity db p page per_page = Ok r → e ∈ logs r →
     e ∈ audit_logs db ∧ AuditLog.user_id e = Some (User.id p))
  ∧ (∀ e, e ∈ audit_logs db → AuditLog.user_id e = Some (User.id p) →
          ∃ page r, Activity.get_my_activity db p page 20 = Ok r
                    ∧ e ∈ logs r).
Proof.
  split.
  - intros page per_page r e. unfold Activity.get_my_activity.
    case_decide; [|done]. intros [= <-]. simpl.
    intros Hin%elem_of_offset_limit.
    apply (proj1 (elem_of_newest_first_sort _ _)) in Hin.
    apply list_elem_of_filter in Hin as [Hown Hin]. done.
  - apply own_entry_on_my_activity.
Qed.

(** The principal of unknown role has no entry; the staff member has
    one. *)
Lemma my_activity_own_entries_witness :
  (∀ page per_page r,
     Activity.get_my_activity Scenario.db Scenario.stranger page per_page
       = Ok r → Scenario.e3 ∉ logs r)
  ∧ (∃ page r, Activity.get_my_activity Scenario.db Scenario.staff12 page 20
                 = Ok r ∧ Scenario.e3 ∈ logs r).
Proof.
  split.
  - intros page per_page r Hr He.
    destruct (proj1 (my_activity_own_entries Scenario.db Scenario.stranger)
                page per_page r Scenario.e3 Hr He) as [_ Hown].
    discriminate Hown.
  - apply (proj2 (my_activity_own_entries Scenario.db Scenario.staff12)).
    + do 2 apply list_elem_of_further. apply list_elem_of_here.
    + reflexivity.
Defined.

(** With pairwise distinct keys, rows of equal key are the same row. *)
Lemma NoDup_fmap_eq {A B : Type} (key : A → B) (l : list A) (x y : A) :
  NoDup (key <$> l) → x ∈ l → y ∈ l → key x = key y → x = y.
Proof.
  induction l as [|z l IH]; [by intros _ ?%elem_of_nil|].
  rewrite fmap_cons. intros [Hz Hnodup]%NoDup_cons.
  intros [-> | Hx]%elem_of_cons [-> | Hy]%elem_of_cons Heq.
  - done.
  - exfalso. apply Hz. rewrite Heq. by apply list_elem_of_fmap_2.
  - exfalso. apply Hz. rewrite <- Heq. by apply list_elem_of_fmap_2.
  - by apply IH.
Qed.

(** With pairwise distinct timestamps, [ORDER BY created_at DESC] leaves
    one order only. *)
Lemma newest_first_order_unique (l1 l2 : list AuditLog.t) :
  NoDup (AuditLog.created_at <$> l1) → l1 ≡ₚ l2 →
  StronglySorted newest_first l1 → StronglySorted newest_first l2 →
  l1 = l2.
Proof.
  intros Hnodup Hperm Hs1 Hs2.
  apply (StronglySorted_unique_strong newest_first); [|done..].
  intros x1 x2 Hx1 Hx2 H12 H21. unfold newest_first in *.
  apply (NoDup_fmap_eq AuditLog.created_at l1); [done..| |lia].
  by rewrite Hperm.
Qed.

(** X2.  For a ClinicAdmin or ClinicStaff principal that administers no
    clinic, the unfiltered [/audit/logs] selects what [/audit/my-activity]
    selects, the rows whose [user_id] is the caller's: for a page both
    routes accept, both answer, with the same total and as many entries;
    when the timestamps of those rows are pairwise distinct, so that the
    order is determined, with the same entries in the same order. *)
Theorem fallback_listing_is_my_activity db p (page per_page : Z) :
  User.role p = Some UserRole.CLINIC_ADMIN
    ∨ User.role p = Some UserRole.CLINIC_STAFF →
  clinic_of_admin db p = None →
  Activity.valid_paging page per_page →
  int64 ((page - 1) * per_page) →
  let own :=
    filter (λ e, sql_eq (AuditLog.user_id e) (User.id p)) (audit_logs db) in
  selected db p (no_filters page per_page) = Ok own
  ∧ ∃ r r',
      get_audit_logs db p (no_filters page per_page) = Ok r
      ∧ Activity.get_my_activity db p page per_page = Ok r'
      ∧ total r = Z.of_nat (length own)
      ∧ total r' = Z.of_nat (length own)
      ∧ length (logs r) = length (logs r')
      ∧ (NoDup (AuditLog.created_at <$> own) →
         ∀ ordered, ordered ≡ₚ own → StronglySorted newest_first ordered →
           logs r = offset_limit ((page - 1) * per_page) per_page ordered
           ∧ logs r' = logs r).
Proof.
  intros Hrole Hnone Hvalid _ own.
  assert (Hsel : selected db p (no_filters page per_page) = Ok own).
  { unfold selected, role_filter. rewrite Hnone.
    by destruct Hrole as [-> | ->]. }
  split; [done|].
  unfold get_audit_logs, Activity.get_my_activity. rewrite Hsel.
  cbn [p_page p_per_page no_filters].
  rewrite decide_True by (unfold Activity.valid_paging, valid_paging in *;
                          lia).
  rewrite decide_True by done.
  eexists _, _. split; [reflexivity|]. split; [reflexivity|].
  cbn [total logs]. fold own.
  split; [done|]. split; [done|]. split; [done|].
  intros Hnodup ordered Hperm Hsorted. split; [|done]. f_equal. symmetry.
  apply newest_first_order_unique; [| |done|].
  - by rewrite Hperm.
  - rewrite Hperm. symmetry. apply merge_sort_Permutation.
  - apply StronglySorted_merge_sort; apply _.
Qed.

(** The staff member of the sample database has one entry, on both
    routes. *)
Lemma fallback_listing_is_my_activity_witness :
  ∃ r r',
    get_audit_logs Scenario.db Scenario.staff12 (no_filters 1 20) = Ok r
    ∧ Activity.get_my_activity Scenario.db Scenario.staff12 1 20 = Ok r'
    ∧ total r = 1
    ∧ total r' = 1
    ∧ length (logs r) = length (logs r')
    ∧ (NoDup (AuditLog.created_at <$> [Scenario.e3]) →
       ∀ ordered, ordered ≡ₚ [Scenario.e3] →
         StronglySorted newest_first ordered →
         logs r = offset_limit ((1 - 1) * 20) 20 ordered
         ∧ logs r' = logs r).
Proof.
  apply (proj2 (fallback_listing_is_my_activity Scenario.db Scenario.staff12
                  1 20 (or_intror eq_refl) eq_refl
                  ltac:(unfold Activity.valid_paging; lia)
                  ltac:(unfold int64; lia))).
Defined.

(** X3.  The allow-list of [/audit/logs] does not hold on
    [/audit/my-activity]: an entry of a Patient's own whose entity type is
    neither USER nor DOCUMENT is never in any [/audit/logs] answer for
    that patient and is on a page of the patient's [/audit/my-activity]. *)
Theorem patient_allow_list_not_on_my_activity db p e :
  User.role p = Some UserRole.PATIENT →
  e ∈ audit_logs db →
  AuditLog.user_id e = Some (User.id p) →
  AuditLog.entity_type e ≠ AuditEntityType.USER →
  AuditLog.entity_type e ≠ AuditEntityType.DOCUMENT →
  (∀ f r, get_audit_logs db p f = Ok r → e ∉ logs r)
  ∧ (∃ page r, Activity.get_my_activity db p page 20 = Ok r ∧ e ∈ logs r).
Proof.
  intros Hrole Hin Hown Huser Hdoc. split.
  - intros f r Hr He.
    destruct (get_audit_logs_elem_of _ _ _ _ _ Hr He) as (q & Hsel & Hq).
    destruct (selected_elem_of _ _ _ _ _ Hsel Hq) as [Hperm _].
    unfold spec_role_permits in Hperm. rewrite Hrole in Hperm.
    destruct Hperm as [_ [Ht | Ht]]; done.
  - by apply own_entry_on_my_activity.
Qed.

Lemma patient_allow_list_not_on_my_activity_witness :
  (∀ f r, get_audit_logs MoreScenario.db Scenario.patient5 f = Ok r →
          MoreScenario.e5 ∉ logs r)
  ∧ (∃ page r,
       Activity.get_my_activity MoreScenario.db Scenario.patient5 page 20
         = Ok r ∧ MoreScenario.e5 ∈ logs r).
Proof.
  apply (patient_allow_list_not_on_my_activity MoreScenario.db
           Scenario.patient5 MoreScenario.e5).
  - reflexivity.
  - do 4 apply list_elem_of_further. apply list_elem_of_here.
  - reflexivity.
  - discriminate.
  - discriminate.
Defined.

(** X4.  A page of [/audit/logs] holds at most [per_page] entries, ordered
    newest first: each entry is at least as recent as every entry after
    it. *)
Theorem audit_page_bounded_and_sorted db p f r :
  get_audit_logs db p f = Ok r →
  Z.of_nat (length (logs r)) ≤ p_per_page f
  ∧ StronglySorted newest_first (logs r).
Proof.
  intros ([_ [Hpp _]] & query & _ & _ & ->)%get_audit_logs_Ok. split.
  - pose proof (length_offset_limit ((p_page f - 1) * p_per_page f)
                  (p_per_page f) (merge_sort newest_first query)). lia.
  - apply StronglySorted_offset_limit.
    apply StronglySorted_merge_sort; apply _.
Qed.

Lemma audit_page_bounded_and_sorted_witness :
  Z.of_nat (length [Scenario.e4; Scenario.e3; Scenario.e2]) ≤ 3
  ∧ StronglySorted newest_first [Scenario.e4; Scenario.e3; Scenario.e2].
Proof.
  exact (audit_page_bounded_and_sorted Scenario.db Scenario.root1
           (no_filters 1 3)
           (mkResponse [Scenario.e4; Scenario.e3; Scenario.e2] 4 1 3)
           eq_refl).
Defined.

(** X5.  For a request whose role filter resolves and whose page size is
    accepted, every page from 1 on (within what the database takes as an
    offset) is answered, an empty one too; the total is the number of
    selected entries whatever the page, and a page is empty exactly when
    it starts at or past the total. *)
Theorem audit_total_and_empty_pages db p f (query : list AuditLog.t)
  (page : Z) :
  selected db p f = Ok query →
  1 ≤ p_per_page f ≤ 100 →
  1 ≤ page →
  bound_parameters (with_page f page) →
  ∃ r, get_audit_logs db p (with_page f page) = Ok r
       ∧ total r = Z.of_nat (length query)
       ∧ (logs r = [] ↔ Z.of_nat (length query) ≤ (page - 1) * p_per_page f).
Proof.
  intros Hsel Hpp Hpage _.
  unfold get_audit_logs. rewrite selected_with_page, Hsel.
  cbn [with_page p_page p_per_page].
  rewrite decide_True by (unfold valid_paging; lia).
  eexists. split; [reflexivity|]. cbn [total logs]. split; [done|].
  rewrite offset_limit_nil_iff by nia.
  by rewrite (Permutation_length (merge_sort_Permutation _ _)).
Qed.

(** The second page of twenty of the four entries the administrator
    sees is answered, and is empty. *)
Lemma audit_total_and_empty_pages_witness :
  ∃ r, get_audit_logs Scenario.db Scenario.root1
         (with_page (no_filters 1 20) 2) = Ok r
       ∧ total r = 4
       ∧ (logs r = [] ↔ 4 ≤ (2 - 1) * 20).
Proof.
  apply (audit_total_and_empty_pages Scenario.db Scenario.root1
           (no_filters 1 20)
           [Scenario.e1; Scenario.e2; Scenario.e3; Scenario.e4] 2 eq_refl).
  - simpl. lia.
  - lia.
  - unfold bound_parameters, int64. simpl.
    split; [lia|]. repeat split; intros; discriminate.
Defined.

(** X6.  When the timestamps of the selected entries are pairwise
    distinct, so that newest first is one order, reading pages 1 to [n]
    of a listing in turn gives the first [n * per_page] entries of that
    order, none skipped and none repeated; once [n * per_page] reaches
    the total, what was read is the whole selection in that order. *)
Theorem audit_pages_cover_the_listing db p f (query : list AuditLog.t)
  (n : nat) (ordered : list AuditLog.t) :
  selected db p f = Ok query →
  1 ≤ p_per_page f ≤ 100 →
  (∀ k : nat, (k < n)%nat →
     bound_parameters (with_page f (Z.of_nat k + 1))) →
  NoDup (AuditLog.created_at <$> query) →
  ordered ≡ₚ query →
  StronglySorted newest_first ordered →
  read_pages db p f n = take (n * Z.to_nat (p_per_page f)) ordered
  ∧ (Z.of_nat (length query) ≤ Z.of_nat n * p_per_page f →
     read_pages db p f n = ordered).
Proof.
  intros Hsel Hpp _ Hnodup Hperm Hsorted.
  assert (Horder : merge_sort newest_first query = ordered).
  { symmetry. apply newest_first_order_unique; [| |done|].
    - by rewrite Hperm.
    - rewrite Hperm. symmetry. apply merge_sort_Permutation.
    - apply StronglySorted_merge_sort; apply _. }
  assert (Hread : read_pages db p f n
    = take (n * Z.to_nat (p_per_page f)) ordered).
  { rewrite <- Horder. unfold read_pages. rewrite <- join_pages. f_equal.
    apply list_fmap_ext. intros _ k _.
    unfold get_audit_logs. rewrite selected_with_page, Hsel.
    cbn [with_page p_page p_per_page].
    rewrite decide_True by (unfold valid_paging; lia).
    cbn [logs]. unfold offset_limit. do 2 f_equal. nia. }
  split; [done|].
  intros Hall. rewrite Hread. apply take_ge.
  rewrite (Permutation_length Hperm). nia.
Qed.

(** The administrator reads the four entries of the sample database in
    two pages of three. *)
Lemma audit_pages_cover_the_listing_witness :
  read_pages Scenario.db Scenario.root1 (no_filters 1 3) 2
  = [Scenario.e4; Scenario.e3; Scenario.e2; Scenario.e1].
Proof.
  apply (proj2 (audit_pages_cover_the_listing Scenario.db Scenario.root1
                  (no_filters 1 3)
                  [Scenario.e1; Scenario.e2; Scenario.e3; Scenario.e4] 2
                  [Scenario.e4; Scenario.e3; Scenario.e2; Scenario.e1]
                  eq_refl ltac:(simpl; lia)
                  ltac:(intros k Hk; unfold bound_parameters, int64; simpl;
                        split; [lia|]; repeat split; intros;
                        discriminate)
                  ltac:(apply (bool_decide_unpack _); vm_compute; exact I)
                  (reverse_Permutation
                     [Scenario.e1; Scenario.e2; Scenario.e3; Scenario.e4])
                  ltac:(apply (bool_decide_unpack _); vm_compute; exact I))).
  simpl. lia.
Defined.

End audit_pages.

(** ** Reading documents *)

Section document_reads.
Import Documents.
Implicit Types (db : Session) (st : State) (p : User.t) (d : Document.t).










End document_reads.

(** ** Writing documents *)

Section document_writes.
Import Documents DocumentDeletion.
Implicit Types (db : Session) (st : State) (p : User.t) (d : Document.t).

Lemma foldr_max_bound (ids : list Z) (x : Z) :
  x ∈ ids → x ≤ foldr Z.max 0 ids.
Proof.
  induction ids as [|y ids IH]; [by intros ?%elem_of_nil|].
  intros [-> | Hin]%elem_of_cons; simpl; [lia|].
  specialize (IH Hin). lia.
Qed.

Lemma filter_none {A : Type} (P : A → Prop) `{!∀ x, Decision (P x)}
  (l : list A) :
  (∀ x, x ∈ l → ¬ P x) → filter P l = [].
Proof.
  induction l as [|x l IH]; [done|]. intros Hnone.
  rewrite filter_cons_False by (apply Hnone, list_elem_of_here).
  apply IH. intros y Hy. by apply Hnone, list_elem_of_further.
Qed.

(** What an upload does to the database: nothing, or the row of the new
    document is added. *)
Lemma upload_document_state st p file outcome (patient_id : option Z)
  (document_type : option DocumentType.t) (notes : option string) :
  let out :=
    upload_document st p file outcome patient_id document_type notes in
  db out.2 = db st
  ∨ ∃ file_path unique_filename file_size clinic_id,
      outcome = saved file_path unique_filename file_size
      ∧ truthy_int (upload_clinic_id (db st) p) = Some clinic_id
      ∧ (∀ pid, truthy_int patient_id = Some pid →
           ∃ patient, patient ∈ patients (db st) ∧ Patient.id patient = pid
                      ∧ Patient.clinic_id patient = Some clinic_id)
      ∧ db out.2
        = add_document
            (Document.mk (next_document_id (db st)) patient_id
               (Some clinic_id) unique_filename
               (str_or (filename file) "unknown") file_path file_size
               (str_or (content_type file) "application/octet-stream")
               (default DocumentType.OTHER document_type)
               DocumentStatus.UPLOADED notes)
            (db st).
Proof.
  unfold upload_document.
  destruct outcome as [file_path unique_filename file_size| |];
    [|by left..].
  cbn [db files].
  destruct (truthy_int (upload_clinic_id (db st) p)) as [clinic_id|];
    [|by left].
  destruct (truthy_int patient_id) as [pid|] eqn:Hpid.
  - destruct (head (filter _ (patients (db st)))) as [patient|] eqn:Hhead;
      [|by left].
    right. exists file_path, unique_filename, file_size, clinic_id.
    split; [done|]. split; [done|]. split.
    + intros pid' [= <-]. exists patient.
      apply head_Some in Hhead as [rest Hrest].
      assert (Hin : patient ∈ filter
        (λ q, Patient.id q = pid ∧ sql_eq (Patient.clinic_id q) clinic_id)
        (patients (db st))) by (rewrite Hrest; apply list_elem_of_here).
      apply list_elem_of_filter in Hin. unfold sql_eq in Hin. tauto.
    + by destruct (from_orm _).
  - right. exists file_path, unique_filename, file_size, clinic_id.
    split; [done|]. split; [done|]. split; [done|].
    by destruct (from_orm _).
Qed.

Lemma truthy_int_Some (n : option Z) (v : Z) :
  truthy_int n = Some v ↔ n = Some v ∧ v ≠ 0.
Proof.
  unfold truthy_int. destruct n as [w|].
  - case_decide as Hw.
    + split; [done|]. intros [[= <-] Hv]. done.
    + split.
      * intros [= <-]. done.
      * by intros [-> _].
  - split; [done|]. by intros [? _].
Qed.

(** X13.  An upload leaves the documents table as it was or appends one
    row to it.  A row is appended only for a ClinicAdmin or ClinicStaff
    principal; it is attributed to the clinic that principal administers,
    or to clinic 1 when there is none; a patient it names (other than by
    the id 0) is a patient of that clinic; and it is in state UPLOADED. *)
Theorem upload_attribution st p file outcome (patient_id : option Z)
  (document_type : option DocumentType.t) (notes : option string) :
  let out :=
    upload_document st p file outcome patient_id document_type notes in
  (documents (db out.2) = documents (db st)
   ∨ ∃ document, documents (db out.2) = documents (db st) ++ [document])
  ∧ (∀ document,
       documents (db out.2) = documents (db st) ++ [document] →
       (User.role p = Some UserRole.CLINIC_ADMIN
          ∨ User.role p = Some UserRole.CLINIC_STAFF)
       ∧ Document.clinic_id document
         = Some (match clinic_of_admin (db st) p with
                 | Some clinic => Clinic.id clinic
                 | None => 1
                 end)
       ∧ Document.patient_id document = patient_id
       ∧ (∀ pid, patient_id = Some pid → pid ≠ 0 →
            ∃ patient, patient ∈ patients (db st) ∧ Patient.id patient = pid
                       ∧ Patient.clinic_id patient
                         = Document.clinic_id document)
       ∧ Document.status document = DocumentStatus.UPLOADED).
Proof.
  intros out.
  destruct (upload_document_state st p file outcome patient_id document_type
              notes)
    as [Hsame | (file_path & unique_filename & file_size & clinic_id & _
                 & Hclinic & Hpatient & Hdb)];
    fold out in Hsame || fold out in Hdb.
  - split; [left; by rewrite Hsame|].
    intros document Hadd. rewrite Hsame in Hadd.
    apply (f_equal length) in Hadd. rewrite length_app in Hadd.
    simpl in Hadd. lia.
  - rewrite Hdb. cbn [add_document documents].
    split; [right; by eexists|].
    intros document <-%app_inv_head%(inj (λ x, [x])).
    cbn [Document.clinic_id Document.status Document.patient_id].
    apply truthy_int_Some in Hclinic as [Hclinic Hnz].
    unfold upload_clinic_id in Hclinic.
    assert (Hrole : User.role p = Some UserRole.CLINIC_ADMIN
                    ∨ User.role p = Some UserRole.CLINIC_STAFF)
      by (destruct (User.role p) as [[]|]; naive_solver).
    assert (Hcid : clinic_id = match clinic_of_admin (db st) p with
                               | Some clinic => Clinic.id clinic
                               | None => 1
                               end).
    { destruct Hrole as [Hr | Hr]; rewrite Hr in Hclinic;
        destruct (clinic_of_admin (db st) p); by simplify_eq. }
    rewrite <- Hcid. repeat split; try done.
    intros pid -> Hpid. apply Hpatient. by apply truthy_int_Some.
Qed.

(** The administrator of clinic 7 uploads a file for patient 50: the row
    appended is of clinic 7 and in state UPLOADED. *)
Lemma upload_attribution_witness :
  let out :=
    upload_document MoreScenario.st Scenario.admin7
      (mkUploadFile (Some "x.pdf") None)
      (saved "uploads/documents/x.pdf" "x.pdf" 10) (Some 50) None None in
  ∃ document,
    documents (db out.2) = documents MoreScenario.db ++ [document]
    ∧ Document.clinic_id document = Some 7
    ∧ Document.status document = DocumentStatus.UPLOADED.
Proof.
  eexists. split; [reflexivity|].
  pose proof (proj2 (upload_attribution MoreScenario.st Scenario.admin7
    (mkUploadFile (Some "x.pdf") None)
    (saved "uploads/documents/x.pdf" "x.pdf" 10) (Some 50) None None) _
    eq_refl) as (_ & Hclinic & _ & _ & Hstatus).
  split; [exact Hclinic | exact Hstatus].
Defined.

(** X14.  For a principal that is neither ClinicAdmin nor ClinicStaff an
    upload whose file was stored is always answered 400; no document is
    created, and the stored file stays in the upload directory. *)
Theorem upload_refused_for_other_roles st p file
  (file_path unique_filename : string) (file_size : Z)
  (patient_id : option Z) (document_type : option DocumentType.t)
  (notes : option string) :
  User.role p ≠ Some UserRole.CLINIC_ADMIN →
  User.role p ≠ Some UserRole.CLINIC_STAFF →
  upload_document st p file (saved file_path unique_filename file_size)
    patient_id document_type notes
  = (HTTPException 400 "Cannot determine clinic association",
     mkState (db st) ({[file_path]} ∪ files st)).
Proof.
  intros Hadmin Hstaff. unfold upload_document, upload_clinic_id.
  cbn [db files]. by destruct (User.role p) as [[]|].
Qed.

Lemma upload_refused_for_other_roles_witness :
  upload_document MoreScenario.st Scenario.root1
    (mkUploadFile (Some "x.pdf") None)
    (saved "uploads/documents/x.pdf" "x.pdf" 10) None None None
  = (HTTPException 400 "Cannot determine clinic association",
     mkState Scenario.db
       ({["uploads/documents/x.pdf"]} ∪ MoreScenario.files)).
Proof.
  apply (upload_refused_for_other_roles MoreScenario.st Scenario.root1);
    discriminate.
Defined.

(** X15.  Uploads keep the table consistent: if every document that names
    a patient names one of its own clinic, this is still so after an
    upload, whatever its outcome, provided the request does not name the
    patient id 0 (which [if patient_id:] lets through unchecked). *)
Theorem upload_keeps_patients_of_own_clinic st p file outcome
  (patient_id : option Z) (document_type : option DocumentType.t)
  (notes : option string) :
  patients_of_own_clinic (db st) →
  patient_id ≠ Some 0 →
  patients_of_own_clinic
    (db (upload_document st p file outcome patient_id document_type
           notes).2).
Proof.
  intros Hinv Hnz.
  destruct (upload_document_state st p file outcome patient_id document_type
              notes)
    as [-> | (file_path & unique_filename & file_size & clinic_id & _ & _
              & Hpatient & ->)]; [done|].
  intros d pid. cbn [add_document documents patients].
  intros [Hin | ->%list_elem_of_singleton]%elem_of_app Hpid.
  - by apply Hinv.
  - cbn [Document.patient_id Document.clinic_id] in *. subst patient_id.
    apply Hpatient. apply truthy_int_Some. split; [done|]. congruence.
Qed.

(** The sample database satisfies the invariant and keeps it through an
    upload. *)
Lemma upload_keeps_patients_of_own_clinic_witness :
  patients_of_own_clinic
    (db (upload_document MoreScenario.st Scenario.admin7
           (mkUploadFile (Some "x.pdf") None)
           (saved "uploads/documents/x.pdf" "x.pdf" 10) (Some 50) None
           None).2).
Proof.
  apply (upload_keeps_patients_of_own_clinic MoreScenario.st Scenario.admin7).
  - intros d pid Hd Hpid. cbn in Hd.
    apply elem_of_cons in Hd as [-> | Hd].
    + exists Scenario.patient_row5. injection Hpid as <-.
      split; [apply list_elem_of_here | split; reflexivity].
    + apply list_elem_of_singleton in Hd as ->. discriminate Hpid.
  - discriminate.
Defined.

End document_writes.

(** ** Registration and login *)

Section registration.
Import Registration.
Implicit Types (db : Session) (user_data : RegisterRequest).

Lemma next_user_id_fresh db u :
  u ∈ users db → User.id u < next_user_id db.
Proof.
  intros Hin. unfold next_user_id.
  pose proof (foldr_max_bound (User.id <$> users db) (User.id u)
                (list_elem_of_fmap_2 _ _ _ Hin)). lia.
Qed.

(** A registration either leaves the users alone (the email was taken)
    or appends the row of the new user. *)
Lemma register_users get_password_hash user_data db :
  let out := register get_password_hash user_data db in
  let row :=
    User.mk (next_user_id db) (email user_data)
      (get_password_hash (password user_data)) (first_name user_data)
      (last_name user_data) (Some (role user_data)) true false in
  (head (filter (λ u, User.email u = email user_data) (users db)) ≠ None
   ∧ out = (HTTPException 400 "Email already registered", db))
  ∨ (head (filter (λ u, User.email u = email user_data) (users db)) = None
     ∧ users out.2 = users db ++ [row]
     ∧ ∀ u, out.1 = Ok u → u = row).
Proof.
  unfold register.
  destruct (head (filter _ (users db))) as [u|] eqn:Hhead; [left; by split|].
  right. split; [done|].
  repeat case_decide;
    repeat match goal with
           | |- context [if ?b then _ else _] => destruct b
           end;
    cbn [fst snd users add_user add_clinic]; split; try done;
    intros u; by intros [= <-].
Qed.

(** X16.  An email can be registered once: whatever a registration
    returned (the new user, or an error before or after the user row was
    written), a further registration of the same email is answered 400
    and changes nothing. *)
Theorem register_email_once get_password_hash user_data user_data' db :
  email user_data' = email user_data →
  let db' := (register get_password_hash user_data db).2 in
  register get_password_hash user_data' db'
  = (HTTPException 400 "Email already registered", db').
Proof.
  intros Hemail db'. subst db'.
  assert (Htaken : ∃ u, head (filter (λ u, User.email u = email user_data)
    (users (register get_password_hash user_data db).2)) = Some u).
  { destruct (register_users get_password_hash user_data db)
      as [[Htaken ->] | (Hfree & -> & _)].
    - cbn [snd].
      destruct (head (filter _ (users db))) as [u|]; [by exists u|done].
    - apply head_None in Hfree. rewrite filter_app, Hfree.
      rewrite filter_cons_True by done. by eexists. }
  destruct Htaken as [u Hu].
  unfold register at 1. rewrite Hemail. by rewrite Hu.
Qed.

Lemma register_email_once_witness :
  let db' := (register MoreScenario.hash MoreScenario.careless_admin
                Scenario.db).2 in
  register MoreScenario.hash MoreScenario.new_admin
    (register MoreScenario.hash MoreScenario.new_admin Scenario.db).2
  = (HTTPException 400 "Email already registered",
     (register MoreScenario.hash MoreScenario.new_admin Scenario.db).2)
  ∧ register MoreScenario.hash MoreScenario.careless_admin db'
    = (HTTPException 400 "Email already registered", db').
Proof.
  split.
  - exact (register_email_once MoreScenario.hash MoreScenario.new_admin
             MoreScenario.new_admin Scenario.db eq_refl).
  - exact (register_email_once MoreScenario.hash MoreScenario.careless_admin
             MoreScenario.careless_admin Scenario.db eq_refl).
Defined.

(** X17.  Registration and login round-trip: when a registration
    succeeds and the hasher verifies a password against its own hash, a
    login with the registered email and password succeeds on the
    resulting database, returns the registered user and a bearer token
    for that email that expires after the configured minutes. *)
Theorem register_then_login (S : TokenService.Scheme)
  (get_password_hash : string → string)
  (verify_password : string → string → bool) (settings : Settings.t)
  (now : Z) (salt : string) user_data db u db' :
  register get_password_hash user_data db = (Ok u, db') →
  verify_password (password user_data)
    (get_password_hash (password user_data)) = true →
  Auth.login S verify_password settings now salt db' (email user_data)
    (password user_data)
  = Ok (Auth.mkToken
          (TokenService.create_access_token S (Settings.secret_key settings)
             (Settings.algorithm settings) now salt (email user_data)
             (60 * Settings.access_token_expire_minutes settings))
          "bearer" (Settings.access_token_expire_minutes settings * 60) u).
Proof.
  intros Hreg Hverify.
  destruct (register_users get_password_hash user_data db)
    as [[_ Hout] | (Hfree & Husers & Hrow)].
  - rewrite Hreg in Hout. discriminate Hout.
  - rewrite Hreg in Husers, Hrow. cbn [fst snd] in *.
    specialize (Hrow u eq_refl).
    unfold Auth.login. rewrite Husers.
    apply head_None in Hfree. rewrite filter_app, Hfree.
    rewrite filter_cons_True by done. cbn [app head].
    subst u. cbn [User.hashed_password User.is_active User.email].
    rewrite Hverify. reflexivity.
Qed.

Lemma register_then_login_witness :
  ∃ u db',
    register MoreScenario.hash MoreScenario.new_admin Scenario.db
      = (Ok u, db')
    ∧ Auth.login ConfigScenario.plain MoreScenario.check
        MoreScenario.settings 1000 "a1" db' "new@clinic.test" "Passw0rd"
      = Ok (Auth.mkToken
              (TokenService.create_access_token ConfigScenario.plain
                 "s3cr3t" "HS256" 1000 "a1" "new@clinic.test" 1800)
              "bearer" 1800 u).
Proof.
  eexists _, _. split; [reflexivity|].
  exact (register_then_login ConfigScenario.plain MoreScenario.hash
           MoreScenario.check MoreScenario.settings 1000 "a1"
           MoreScenario.new_admin Scenario.db _ _ eq_refl eq_refl).
Defined.

(** When the clinics name only existing users as administrators, none
    names the user that is about to be created. *)
Lemma clinic_of_new_user_None db :
  (∀ c uid, c ∈ clinics db → Clinic.admin_user_id c = Some uid →
            uid ∈ User.id <$> users db) →
  filter (λ c, sql_eq (Clinic.admin_user_id c) (next_user_id db))
         (clinics db) = [].
Proof.
  intros Hfk. apply filter_none. intros c Hc Hadmin.
  unfold sql_eq in Hadmin. specialize (Hfk c _ Hc Hadmin).
  apply list_elem_of_fmap in Hfk as (v & Hv & Hin).
  pose proof (next_user_id_fresh _ _ Hin). lia.
Qed.

(** X18.  A ClinicAdmin registration without clinic name or license is
    answered 400 after the user row was committed: the user exists,
    active, with role ClinicAdmin, no clinic was created, and (when the
    clinics name only existing users as administrators) no clinic
    resolves for the new user. *)
Theorem register_clinic_admin_without_clinic get_password_hash user_data db :
  role user_data = UserRole.CLINIC_ADMIN →
  falsy (clinic_name user_data) || falsy (clinic_license user_data) = true →
  head (filter (λ u, User.email u = email user_data) (users db)) = None →
  (∀ c uid, c ∈ clinics db → Clinic.admin_user_id c = Some uid →
            uid ∈ User.id <$> users db) →
  let out := register get_password_hash user_data db in
  out.1 = HTTPException 400
            "Clinic name and license required for clinic admin"
  ∧ clinics out.2 = clinics db
  ∧ ∃ u, users out.2 = users db ++ [u]
         ∧ User.email u = email user_data
         ∧ User.role u = Some UserRole.CLINIC_ADMIN
         ∧ User.is_active u = true
         ∧ clinic_of_admin out.2 u = None.
Proof.
  intros Hrole Hfalsy Hfree Hfk. unfold register.
  rewrite Hfree, Hrole, decide_True by done. rewrite Hfalsy.
  cbn [fst snd add_user users clinics]. split; [done|]. split; [done|].
  eexists. split; [reflexivity|]. cbn [User.email User.role User.is_active].
  repeat split.
  unfold clinic_of_admin. cbn [clinics add_user User.id].
  by rewrite (clinic_of_new_user_None db).
Qed.

Lemma register_clinic_admin_without_clinic_witness :
  let out :=
    register MoreScenario.hash MoreScenario.careless_admin Scenario.db in
  out.1 = HTTPException 400
            "Clinic name and license required for clinic admin"
  ∧ clinics out.2 = clinics Scenario.db
  ∧ ∃ u, users out.2 = users Scenario.db ++ [u]
         ∧ User.email u = "late@clinic.test"
         ∧ User.role u = Some UserRole.CLINIC_ADMIN
         ∧ User.is_active u = true
         ∧ clinic_of_admin out.2 u = None.
Proof.
  apply (register_clinic_admin_without_clinic MoreScenario.hash
           MoreScenario.careless_admin Scenario.db);
    [reflexivity | reflexivity | reflexivity |].
  intros c uid Hc Hadmin. cbn in Hc.
  apply elem_of_cons in Hc as [-> | Hc].
  - injection Hadmin as <-. apply (bool_decide_unpack _). exact I.
  - apply list_elem_of_singleton in Hc as ->.
    injection Hadmin as <-. apply (bool_decide_unpack _). exact I.
Defined.

(** X19.  A successful ClinicAdmin registration creates the clinic of the
    new user: with clinics that name only existing users as
    administrators, the clinic that resolves for the new user is the new
    row, which carries the requested name and license; a successful
    registration in another role creates no clinic. *)
Theorem register_creates_the_clinic get_password_hash user_data db u db' :
  register get_password_hash user_data db = (Ok u, db') →
  (∀ c uid, c ∈ clinics db → Clinic.admin_user_id c = Some uid →
            uid ∈ User.id <$> users db) →
  if decide (role user_data = UserRole.CLINIC_ADMIN) then
    ∃ clinic, clinic_of_admin db' u = Some clinic
              ∧ clinics db' = clinics db ++ [clinic]
              ∧ clinic_name user_data = Some (Clinic.name clinic)
              ∧ clinic_license user_data = Some (Clinic.license_number clinic)
              ∧ Clinic.admin_user_id clinic = Some (User.id u)
  else clinics db' = clinics db.
Proof.
  intros Hreg Hfk. revert Hreg. unfold register.
  destruct (head (filter _ (users db))); [done|].
  case_decide as Hrole.
  - destruct (falsy (clinic_name user_data) || falsy (clinic_license user_data))
      eqn:Hfalsy; [done|].
    apply orb_false_elim in Hfalsy as [Hname Hlicense].
    case_decide; [done|]. intros [= <- <-].
    eexists. unfold clinic_of_admin.
    cbn [add_clinic add_user clinics users User.id Clinic.name
         Clinic.license_number Clinic.admin_user_id].
    rewrite filter_app, (clinic_of_new_user_None db) by done.
    rewrite filter_cons_True by done. cbn [app head].
    split; [reflexivity|]. split; [reflexivity|].
    destruct (clinic_name user_data) as [name|]; [|done].
    destruct (clinic_license user_data) as [license|]; [|done].
    done.
  - by intros [= <- <-].
Qed.

Lemma register_creates_the_clinic_witness :
  ∃ u db' clinic,
    register MoreScenario.hash MoreScenario.new_admin Scenario.db
      = (Ok u, db')
    ∧ clinic_of_admin db' u = Some clinic
    ∧ Clinic.name clinic = "East".
Proof.
  pose proof (register_creates_the_clinic MoreScenario.hash
    MoreScenario.new_admin Scenario.db _ _ eq_refl) as H.
  destruct H as (clinic & Hresolved & _ & Hname & _).
  - intros c uid Hc Hadmin. cbn in Hc.
    apply elem_of_cons in Hc as [-> | Hc].
    + injection Hadmin as <-. apply (bool_decide_unpack _). exact I.
    + apply list_elem_of_singleton in Hc as ->.
      injection Hadmin as <-. apply (bool_decide_unpack _). exact I.
  - eexists _, _, clinic. split; [reflexivity|]. split; [exact Hresolved|].
    injection Hname as <-. reflexivity.
Defined.

(** X20.  [login] issues a token only to a registered, active user whose
    password verifies: the user of the answer is a row with the given
    email, that row is active and its stored hash verifies the password.
    An unknown email and a wrong password are answered alike, with the
    same 401. *)
Theorem login_sound (S : TokenService.Scheme)
  (verify_password : string → string → bool) (settings : Settings.t)
  (now : Z) (salt : string) db (username password : string) :
  (∀ tok,
     Auth.login S verify_password settings now salt db username password
       = Ok tok →
     Auth.user tok ∈ users db
     ∧ User.email (Auth.user tok) = username
     ∧ verify_password password (User.hashed_password (Auth.user tok)) = true
     ∧ User.is_active (Auth.user tok) = true)
  ∧ ((∀ u, u ∈ users db → User.email u = username →
           verify_password password (User.hashed_password u) = false) →
     Auth.login S verify_password settings now salt db username password
     = HTTPException 401 "Incorrect email or password").
Proof.
  unfold Auth.login. split.
  - intros tok.
    destruct (head (filter _ (users db))) as [user|] eqn:Hhead; [|done].
    destruct (verify_password _ _) eqn:Hv; [|done].
    destruct (User.is_active user) eqn:Ha; [|done].
    cbn [negb]. intros [= <-]. cbn [Auth.user].
    apply head_Some in Hhead as [rest Hrest].
    assert (Hin : user ∈ filter (λ u, User.email u = username) (users db))
      by (rewrite Hrest; apply list_elem_of_here).
    apply list_elem_of_filter in Hin as [Hemail Hin]. done.
  - intros Hbad.
    destruct (head (filter _ (users db))) as [user|] eqn:Hhead; [|done].
    apply head_Some in Hhead as [rest Hrest].
    assert (Hin : user ∈ filter (λ u, User.email u = username) (users db))
      by (rewrite Hrest; apply list_elem_of_here).
    apply list_elem_of_filter in Hin as [Hemail Hin].
    by rewrite (Hbad user Hin Hemail).
Qed.

(** On the sample database, whose stored hashes the sample verifier
    rejects, a registered and an unregistered email get the same
    answer. *)
Lemma login_sound_witness :
  Auth.login ConfigScenario.plain MoreScenario.check MoreScenario.settings
    1000 "a1" Scenario.db "p5@mail.test" "guess"
  = HTTPException 401 "Incorrect email or password"
  ∧ Auth.login ConfigScenario.plain MoreScenario.check MoreScenario.settings
      1000 "a1" Scenario.db "nobody@mail.test" "guess"
    = HTTPException 401 "Incorrect email or password".
Proof.
  split.
  - apply (proj2 (login_sound ConfigScenario.plain MoreScenario.check
                    MoreScenario.settings 1000 "a1" Scenario.db
                    "p5@mail.test" "guess")).
    intros u Hu _. cbn in Hu.
    repeat (apply elem_of_cons in Hu as [-> | Hu]; [reflexivity|]).
    by apply elem_of_nil in Hu.
  - apply (proj2 (login_sound ConfigScenario.plain MoreScenario.check
                    MoreScenario.settings 1000 "a1" Scenario.db
                    "nobody@mail.test" "guess")).
    intros u Hu _. cbn in Hu.
    repeat (apply elem_of_cons in Hu as [-> | Hu]; [reflexivity|]).
    by apply elem_of_nil in Hu.
Defined.

End registration.

(** ** Deleting patients *)

Section patient_deletion.
Import Patients.
Implicit Types (db : Session) (p : User.t).

(** X21.  [delete_patient] never leaves a document without its patient:
    while a document names the patient the deletion is refused; when it
    succeeds, the rows of that id are gone from the patient table, the
    documents are untouched and none names the deleted id, and a table
    in which every document names a patient of its own clinic stays so.
    A refused deletion changes nothing. *)
Theorem delete_patient_keeps_references db p (patient_id : Z) :
  let out := delete_patient db p patient_id in
  ((∃ d, d ∈ documents db ∧ Document.patient_id d = Some patient_id) →
   ∀ msg, out.1 ≠ Ok msg)
  ∧ (∀ msg, out.1 = Ok msg →
       (∀ q, q ∈ patients out.2
             ↔ q ∈ patients db ∧ Patient.id q ≠ patient_id)
       ∧ documents out.2 = documents db
       ∧ (∀ d, d ∈ documents out.2 →
               Document.patient_id d ≠ Some patient_id)
       ∧ (patients_of_own_clinic db → patients_of_own_clinic out.2))
  ∧ (∀ status detail, out.1 = HTTPException status detail → out.2 = db).
Proof.
  unfold delete_patient.
  destruct (head (filter _ (patients db))) as [patient|] eqn:Hhead;
    [|by repeat split].
  assert (Hid : Patient.id patient = patient_id).
  { apply head_Some in Hhead as [rest Hrest].
    assert (Hin : patient ∈ filter (λ q, Patient.id q = patient_id)
                              (patients db))
      by (rewrite Hrest; apply list_elem_of_here).
    by apply list_elem_of_filter in Hin as [? _]. }
  subst patient_id.
  match goal with |- context [if ?b then _ else _] => destruct b end;
    [by repeat split|].
  set (named := filter (λ d, sql_eq (Document.patient_id d)
                               (Patient.id patient)) (documents db)).
  case_decide as Hcount; cbn [fst snd].
  - split; [done|]. by split.
  - assert (Hnone : named = []).
    { destruct named; [done|]. simpl in Hcount. lia. }
    assert (Hfree : ∀ d, d ∈ documents db →
                         Document.patient_id d ≠ Some (Patient.id patient)).
    { intros d Hd Hnamed.
      assert (Hin : d ∈ named) by (by apply list_elem_of_filter).
      rewrite Hnone in Hin. by apply elem_of_nil in Hin. }
    split; [|split; [|done]].
    + intros (d & Hd & Hnamed) msg _. by apply (Hfree d).
    + intros msg _. unfold remove_patient. cbn [patients documents].
      split; [|split; [done|split; [done|]]].
      * intros q. rewrite list_elem_of_filter. tauto.
      * intros Hinv d pid Hd Hpid. cbn [documents patients] in *.
        destruct (Hinv d pid Hd Hpid) as (q & Hq & Hqid & Hclinic).
        exists q. split; [|done]. apply list_elem_of_filter. split; [|done].
        intros Heq. apply (Hfree d Hd). by rewrite Hpid, <- Hqid, Heq.
Qed.

(** Patient 50 has a document and cannot be deleted by the administrator
    of clinic 7; the database is left as it was. *)
Lemma delete_patient_keeps_references_witness :
  (∀ msg, (delete_patient Scenario.db Scenario.admin7 50).1 ≠ Ok msg)
  ∧ (delete_patient Scenario.db Scenario.admin7 50).2 = Scenario.db.
Proof.
  pose proof (delete_patient_keeps_references Scenario.db Scenario.admin7 50)
    as (Hrefused & _ & Hsame).
  split.
  - apply Hrefused. exists Scenario.doc70.
    split; [apply list_elem_of_here | reflexivity].
  - apply (Hsame 400
      "Cannot delete patient with 1 documents. Delete or reassign documents first.").
    reflexivity.
Defined.

End patient_deletion.

(** ** Ages *)

Section ages.
Import Demographics.
Implicit Types (today dob : date).

(** X22.  The age of the statistics counts completed years: it is 0 on
    the day of birth; on a day that is on or after the birthday of its
    year, by month and day, it is that year less the year of birth, and
    on a day before the birthday of its year it is one less; and it
    never decreases as the calendar date advances. *)
Theorem age_counts_completed_years dob :
  age_on dob dob = 0
  ∧ (∀ today,
       date_le (mkDate (year today) (month dob) (day dob)) today →
       age_on today dob = year today - year dob)
  ∧ (∀ today,
       ¬ date_le (mkDate (year today) (month dob) (day dob)) today →
       age_on today dob = year today - year dob - 1)
  ∧ (∀ today today', date_le today today' →
                     age_on today dob ≤ age_on today' dob).
Proof.
  unfold age_on, date_le. cbn [year month day].
  repeat split; intros; repeat case_decide; lia.
Qed.

(** Born on 29 February 2000: 23 on 28 February 2024, 24 on the 29th and
    on 1 March 2024. *)
Lemma age_counts_completed_years_witness :
  age_on (mkDate 2024 2 28) (mkDate 2000 2 29) = 2024 - 2000 - 1
  ∧ age_on (mkDate 2024 2 29) (mkDate 2000 2 29) = 2024 - 2000
  ∧ age_on (mkDate 2024 3 1) (mkDate 2000 2 29) = 2024 - 2000.
Proof.
  pose proof (age_counts_completed_years (mkDate 2000 2 29))
    as (_ & Hafter & Hbefore & _).
  split; [|split].
  - apply (Hbefore (mkDate 2024 2 28)).
    unfold date_le. cbn [year month day]. lia.
  - apply (Hafter (mkDate 2024 2 29)).
    unfold date_le. cbn [year month day]. lia.
  - apply (Hafter (mkDate 2024 3 1)).
    unfold date_le. cbn [year month day]. lia.
Defined.

(** One [+= 1] on a dictionary of five distinct keys. *)
Lemma increment_groups (k1 k2 k3 k4 k5 : string) (a b c d e : Z)
  (key : string) :
  NoDup [k1; k2; k3; k4; k5] →
  key ∈ [k1; k2; k3; k4; k5] →
  increment key {[ k1 := a; k2 := b; k3 := c; k4 := d; k5 := e ]}
  = {[ k1 := a + (if decide (key = k1) then 1 else 0);
       k2 := b + (if decide (key = k2) then 1 else 0);
       k3 := c + (if decide (key = k3) then 1 else 0);
       k4 := d + (if decide (key = k4) then 1 else 0);
       k5 := e + (if decide (key = k5) then 1 else 0) ]}.
Proof.
  intros Hnodup Hkey. unfold increment.
  apply map_eq. intros k. rewrite lookup_alter.
  rewrite !NoDup_cons, !elem_of_cons, !elem_of_nil in Hnodup.
  rewrite !elem_of_cons, elem_of_nil in Hkey.
  destruct Hnodup as (H1 & H2 & H3 & H4 & _).
  assert (Hcase : key = k1 ∨ key = k2 ∨ key = k3 ∨ key = k4 ∨ key = k5)
    by tauto.
  rewrite !lookup_insert, !lookup_singleton.
  destruct Hcase as [-> | [-> | [-> | [-> | ->]]]];
    repeat case_decide; subst; simpl; try tauto;
    try (f_equal; lia); try done.
Qed.

Lemma count_cons (group : Z → string) today dob (dobs : list date)
  (k : string) (a : Z) :
  a + (if decide (group (age_on today dob) = k) then 1 else 0)
  + Z.of_nat (length (filter (λ dob, group (age_on today dob) = k) dobs))
  = a + Z.of_nat (length (filter (λ dob, group (age_on today dob) = k)
                                 (dob :: dobs))).
Proof.
  case_decide;
    [rewrite filter_cons_True by done | rewrite filter_cons_False by done];
    simpl length; lia.
Qed.

(** The loop over the dates of birth, for any grouping into five keys:
    each key ends with what it started with plus the number of dates
    grouped under it. *)
Lemma age_loop (group : Z → string) (k1 k2 k3 k4 k5 : string) today
  (dobs : list date) :
  NoDup [k1; k2; k3; k4; k5] →
  (∀ age, group age ∈ [k1; k2; k3; k4; k5]) →
  ∀ a b c d e,
    foldl (λ age_groups dob, increment (group (age_on today dob)) age_groups)
          {[ k1 := a; k2 := b; k3 := c; k4 := d; k5 := e ]} dobs
    = {[ k1 := a + Z.of_nat (length (filter
                 (λ dob, group (age_on today dob) = k1) dobs));
         k2 := b + Z.of_nat (length (filter
                 (λ dob, group (age_on today dob) = k2) dobs));
         k3 := c + Z.of_nat (length (filter
                 (λ dob, group (age_on today dob) = k3) dobs));
         k4 := d + Z.of_nat (length (filter
                 (λ dob, group (age_on today dob) = k4) dobs));
         k5 := e + Z.of_nat (length (filter
                 (λ dob, group (age_on today dob) = k5) dobs)) ]}.
Proof.
  intros Hnodup Hgroup. induction dobs as [|dob dobs IH]; intros a b c d e.
  - simpl. by rewrite !Z.add_0_r.
  - cbn [foldl]. rewrite increment_groups by done. rewrite IH.
    by rewrite !count_cons.
Qed.

(** Each date falls under exactly one of five distinct keys. *)
Lemma groups_partition (group : Z → string) (k1 k2 k3 k4 k5 : string) today
  (dobs : list date) :
  NoDup [k1; k2; k3; k4; k5] →
  (∀ age, group age ∈ [k1; k2; k3; k4; k5]) →
  Z.of_nat (length (filter (λ dob, group (age_on today dob) = k1) dobs))
  + Z.of_nat (length (filter (λ dob, group (age_on today dob) = k2) dobs))
  + Z.of_nat (length (filter (λ dob, group (age_on today dob) = k3) dobs))
  + Z.of_nat (length (filter (λ dob, group (age_on today dob) = k4) dobs))
  + Z.of_nat (length (filter (λ dob, group (age_on today dob) = k5) dobs))
  = Z.of_nat (length dobs).
Proof.
  intros Hnodup Hgroup.
  rewrite !NoDup_cons, !elem_of_cons, !elem_of_nil in Hnodup.
  destruct Hnodup as (H1 & H2 & H3 & H4 & _).
  induction dobs as [|dob dobs IH]; [done|].
  specialize (Hgroup (age_on today dob)).
  rewrite !elem_of_cons, elem_of_nil in Hgroup.
  assert (Hcase : group (age_on today dob) = k1
                  ∨ group (age_on today dob) = k2
                  ∨ group (age_on today dob) = k3
                  ∨ group (age_on today dob) = k4
                  ∨ group (age_on today dob) = k5) by tauto.
  clear Hgroup.
  destruct Hcase as [Hk | [Hk | [Hk | [Hk | Hk]]]];
    repeat match goal with
           | |- context [filter ?P (dob :: dobs)] =>
               first [ rewrite (filter_cons_True P) by done
                     | rewrite (filter_cons_False P)
                         by (rewrite Hk; intros ->; tauto) ]
           end;
    simpl length; lia.
Qed.

Lemma clinic_age_group_keys (age : Z) :
  clinic_age_group age ∈ ["0-18"; "19-35"; "36-55"; "56-70"; "71+"].
Proof.
  unfold clinic_age_group. rewrite !elem_of_cons.
  repeat case_decide; tauto.
Qed.

Lemma stats_age_group_keys (age : Z) :
  stats_age_group age ∈ ["0-18"; "19-30"; "31-50"; "51-70"; "70+"].
Proof.
  unfold stats_age_group. rewrite !elem_of_cons.
  repeat case_decide; tauto.
Qed.

(** X23.  Both age statistics count every date of birth exactly once:
    the dictionary keeps its five keys and their counts add up to the
    number of dates; the first group takes every age up to 18, negative
    ages of dates in the future included, and the last every age
    above 70. *)
Theorem age_groups_count_every_date today (dobs : list date) :
  (∃ a b c d e,
     clinic_age_distribution today dobs
     = {[ "0-18" := a; "19-35" := b; "36-55" := c; "56-70" := d;
          "71+" := e ]}
     ∧ a + b + c + d + e = Z.of_nat (length dobs)
     ∧ a = Z.of_nat (length (filter (λ dob, age_on today dob ≤ 18) dobs))
     ∧ e = Z.of_nat (length (filter (λ dob, 70 < age_on today dob) dobs)))
  ∧ (∃ a b c d e,
       stats_age_distribution today dobs
       = {[ "0-18" := a; "19-30" := b; "31-50" := c; "51-70" := d;
            "70+" := e ]}
       ∧ a + b + c + d + e = Z.of_nat (length dobs)
       ∧ a = Z.of_nat (length (filter (λ dob, age_on today dob ≤ 18) dobs))
       ∧ e = Z.of_nat (length (filter (λ dob, 70 < age_on today dob) dobs))).
Proof.
  assert (Hclinic : NoDup ["0-18"; "19-35"; "36-55"; "56-70"; "71+"])
    by (apply (bool_decide_unpack _); exact I).
  assert (Hstats : NoDup ["0-18"; "19-30"; "31-50"; "51-70"; "70+"])
    by (apply (bool_decide_unpack _); exact I).
  split.
  - unfold clinic_age_distribution.
    rewrite (age_loop clinic_age_group) by (done || apply clinic_age_group_keys).
    eexists _, _, _, _, _. split; [reflexivity|]. rewrite !Z.add_0_l.
    split; [apply groups_partition; done || apply clinic_age_group_keys|].
    split; do 2 f_equal; apply list_filter_iff; intros dob;
      unfold clinic_age_group; repeat case_decide; split; (done || lia).
  - unfold stats_age_distribution.
    rewrite (age_loop stats_age_group) by (done || apply stats_age_group_keys).
    eexists _, _, _, _, _. split; [reflexivity|]. rewrite !Z.add_0_l.
    split; [apply groups_partition; done || apply stats_age_group_keys|].
    split; do 2 f_equal; apply list_filter_iff; intros dob;
      unfold stats_age_group; repeat case_decide; split; (done || lia).
Qed.

End ages.

(** ** The security headers *)

(** X24.  The five header assignments replace whatever the response had
    under those names, in any letter case, keep every other header, the
    status and the content, and applying them a second time changes
    nothing. *)
Theorem security_headers_replace_and_keep (response : Response.t) :
  let out := SecurityMiddleware.add_security_headers response in
  carries_security_headers out
  ∧ Response.status_code out = Response.status_code response
  ∧ Response.content out = Response.content response
  ∧ (∀ key, lower key ∉ (λ kv, lower kv.1) <$> spec_security_headers →
            Response.header key out = Response.header key response)
  ∧ SecurityMiddleware.add_security_headers out = out.
Proof.
  unfold carries_security_headers, spec_security_headers,
    SecurityMiddleware.add_security_headers, Response.header,
    Response.set_header.
  cbn [Response.headers Response.status_code Response.content fst snd fmap
       list_fmap].
  repeat match goal with
         | |- context [lower (String ?c ?s)] =>
             let v := eval vm_compute in (lower (String c s)) in
             change (lower (String c s)) with v
         end.
  split; [|split; [done|split; [done|split]]].
  - repeat constructor; cbn [fst snd];
      repeat match goal with
             | |- context [lower (String ?c ?s)] =>
                 let v := eval vm_compute in (lower (String c s)) in
                 change (lower (String c s)) with v
             end;
      repeat (rewrite lookup_insert_ne by done); by rewrite lookup_insert_eq.
  - intros key. rewrite !not_elem_of_cons. intros (H1 & H2 & H3 & H4 & H5 & _).
    by rewrite !lookup_insert_ne by done.
  - f_equal. apply map_eq. intros k.
    rewrite !lookup_insert. by repeat case_decide.
Qed.

(** A response that allowed framing from the same origin and set a
    cookie. *)
Lemma security_headers_replace_and_keep_witness :
  let out := SecurityMiddleware.add_security_headers MoreScenario.framed in
  Response.header "X-Frame-Options" out = Some "DENY"
  ∧ Response.header "Set-Cookie" out = Some "sid=1".
Proof.
  pose proof (security_headers_replace_and_keep MoreScenario.framed)
    as (Hcarries & _ & _ & Hkeep & _).
  split.
  - apply Forall_cons in Hcarries as [_ Hcarries].
    apply Forall_cons in Hcarries as [Hframe _]. exact Hframe.
  - apply (eq_trans (Hkeep "Set-Cookie"
                       ltac:(apply (bool_decide_unpack _); exact I))).
    reflexivity.
Defined.

(** ** Deleting without a clinic *)


